(** * Finding Disposition Engine: a shallow embedding of
      [scripts/deployment/lambda/false_positive_analysis.py]

    Modelling conventions.
    - Python [str] values are [string]s whose characters are code points
      below 256; [Py.lower] is [str.lower] on that range.
    - Python [float] scores are embedded twice.  Module [Binary64] has them
      as the code computes them, on IEEE binary64 numbers (the primitive
      floats): a decimal literal is the nearest double and every operation
      rounds.  The modules before it have them as exact rationals ([Q]), the
      idealisation in which the bounds on the scores are proved.
    - A dictionary read with [d.get(key, default)] is a record whose field is
      an [option]: [None] is the absent key and the accessor substitutes the
      default of the source.  A key read with [d[key]] raises [KeyError] when
      it is absent.
    - The [async] methods are awaited one after the other by their callers,
      so each is embedded as the function of its body. *)

From Stdlib Require Import String Ascii List Bool Arith ZArith QArith Qround Lia Lqa.
From Stdlib Require Import DecimalString.
From Stdlib Require Floats.
Import ListNotations.
Open Scope string_scope.
Open Scope Q_scope.

(* ================================================================== *)
(** * Python built-ins used by the module *)
(* ================================================================== *)

Module Py.

(** [c.lower()] for one character of code point below 256: [A-Z] and the
    Latin-1 capitals (192..222 but the multiplication sign 215) move up
    by 32, every other character is unchanged. *)
Definition lower_char (c : ascii) : ascii :=
  let n := nat_of_ascii c in
  if ((65 <=? n) && (n <=? 90))%nat
     || ((192 <=? n) && (n <=? 222) && negb (n =? 215))%nat
  then ascii_of_nat (n + 32) else c.

(** [s.lower()] *)
Fixpoint lower (s : string) : string :=
  match s with
  | EmptyString => EmptyString
  | String c s' => String (lower_char c) (lower s')
  end.

(** [p in t] on strings: [p] occurs in [t] as a contiguous run. *)
Fixpoint contains (t p : string) : bool :=
  String.prefix p t ||
  match t with
  | EmptyString => false
  | String _ t' => contains t' p
  end.

(** [sep.join(parts)] *)
Definition join (sep : string) (parts : list string) : string :=
  String.concat sep parts.

(** [s.split(sep)] for a one-character separator: never the empty list. *)
Fixpoint split (sep : ascii) (s : string) : list string :=
  match s with
  | EmptyString => [EmptyString]
  | String c s' =>
      if Ascii.eqb c sep then EmptyString :: split sep s'
      else match split sep s' with
           | h :: t => String c h :: t
           | [] => [String c EmptyString]
           end
  end.

(** [parts[-1]] on a list that [split] returned *)
Definition last_item (parts : list string) : string := List.last parts EmptyString.

(** [x in xs] on a list of strings *)
Definition mem (x : string) (xs : list string) : bool :=
  existsb (String.eqb x) xs.

(** [any(p in text for p in patterns)] *)
Definition any_in (text : string) (patterns : list string) : bool :=
  existsb (contains text) patterns.

(** [x > y] and [x < y] on numbers *)
Definition gt (x y : Q) : bool := negb (Qle_bool x y).
Definition lt (x y : Q) : bool := gt y x.

(** The two-argument built-ins [max(a, b)] and [min(a, b)]: the first
    argument is kept unless the second is strictly beyond it. *)
Definition max (a b : Q) : Q := if gt b a then b else a.
Definition min (a b : Q) : Q := if lt b a then b else a.

(** [sum(xs)]: starts from 0 and adds from the left. *)
Definition sum (xs : list Q) : Q := fold_left Qplus xs 0.

(** [len(xs)] as a number, and the true division [a / b]. *)
Definition len {A} (xs : list A) : Q := inject_Z (Z.of_nat (List.length xs)).

Definition of_nat (n : nat) : Q := inject_Z (Z.of_nat n).

(** [zip(xs, ys)] is [List.combine]: it stops at the shorter list. *)
Definition zip {A B} (xs : list A) (ys : list B) : list (A * B) := List.combine xs ys.

(** [s.replace(c, '')]: every occurrence of the character is dropped. *)
Fixpoint remove_char (c : ascii) (s : string) : string :=
  match s with
  | EmptyString => EmptyString
  | String d s' => if Ascii.eqb d c then remove_char c s' else String d (remove_char c s')
  end.

(** [d.get(key, default)] on a dictionary with string keys, kept as the
    list of its items. *)
Fixpoint dict_get {A} (d : list (string * A)) (key : string) (default : A) : A :=
  match d with
  | [] => default
  | (k, v) :: rest => if String.eqb k key then v else dict_get rest key default
  end.

(** [f"{x:.0f}"]: [x] rounded to the nearest integer, ties to even, in
    decimal.  The source formats a percentage, which is never negative. *)
Definition round_half_even (x : Q) : Z :=
  let fl := Qfloor x in
  let frac := x - inject_Z fl in
  if lt frac (1#2) then fl
  else if gt frac (1#2) then (fl + 1)%Z
  else if Z.even fl then fl else (fl + 1)%Z.

Definition format_0f (x : Q) : string :=
  NilZero.string_of_int (Z.to_int (round_half_even x)).

End Py.

(* ================================================================== *)
(** * Input data: the finding dictionary *)
(* ================================================================== *)

(** One entry of [finding['Resources']]; [Tags] keeps the insertion order
    of the dictionary, which [tags.values()] follows. *)
Module Resource.
Record t := mk {
  Id : option string;
  Tags : option (list (string * string))
}.
(** [resource.get('Id', '')] *)
Definition get_Id (r : t) : string :=
  match Id r with Some s => s | None => "" end.
(** [resource.get('Tags', {})] *)
Definition get_Tags (r : t) : list (string * string) :=
  match Tags r with Some d => d | None => [] end.
(** The empty dictionary [{}] *)
Definition empty : t := mk None None.
End Resource.

(** [tags.values()] *)
Definition values (tags : list (string * string)) : list string := map snd tags.

Module Finding.
Record t := mk {
  Id : option string;
  GeneratorId : option string;
  AwsAccountId : option string;
  (** [Severity] is a dictionary with a [Label] key *)
  Severity : option (option string);
  Resources : option (list Resource.t);
  Title : option string;
  Description : option string
}.
(** [finding.get('Resources', [{}])] *)
Definition get_Resources (f : t) : list Resource.t :=
  match Resources f with Some rs => rs | None => [Resource.empty] end.
(** [finding.get('GeneratorId', '')] *)
Definition get_GeneratorId (f : t) : string :=
  match GeneratorId f with Some s => s | None => "" end.
(** [finding.get('AwsAccountId', '')] *)
Definition get_AwsAccountId (f : t) : string :=
  match AwsAccountId f with Some s => s | None => "" end.
(** [finding.get('Severity', {}).get('Label', 'MEDIUM')] *)
Definition get_Severity_Label (f : t) : string :=
  match Severity f with
  | Some (Some l) => l
  | _ => "MEDIUM"
  end.
End Finding.

(** A historical finding of the history store: only [WorkflowState] is read,
    with [f.get('WorkflowState')]. *)
Module HistoricalFinding.
Record t := mk { WorkflowState : option string }.
End HistoricalFinding.

(** The per-request [analysis_options]; each is read with
    [options.get(name, True)]. *)
Module Options.
Record t := mk {
  include_ml_classification : option bool;
  include_pattern_analysis : option bool;
  include_business_context : option bool;
  include_temporal_analysis : option bool
}.
Definition get (o : option bool) : bool :=
  match o with Some b => b | None => true end.
End Options.

(* ================================================================== *)
(** * The data classes *)
(* ================================================================== *)

Module EnvironmentContext.
Record t := mk {
  environment : string;
  risk_level : string;
  is_production : bool;
  requires_immediate_action : bool
}.
End EnvironmentContext.

Module BusinessContext.
Record t := mk {
  is_critical_resource : bool;
  has_business_exception : bool;
  business_impact : string;
  requires_business_review : bool
}.
End BusinessContext.

Module FalsePositiveClassification.
Record t := mk {
  is_false_positive : bool;
  confidence : Q;
  reasoning : string
}.
End FalsePositiveClassification.

Module PatternAnalysis.
Record t := mk {
  similar_findings_count : nat;
  false_positive_rate : Q;
  pattern_confidence : Q;
  pattern_reasoning : string
}.
End PatternAnalysis.

Module TemporalAnalysis.
Record t := mk {
  is_temporary : bool;
  recurrence_pattern : string;
  in_maintenance_window : bool;
  temporal_risk_level : string
}.
End TemporalAnalysis.

(* ================================================================== *)
(** * class EnvironmentAnalyzer *)
(* ================================================================== *)

Module EnvironmentAnalyzer.

(** [self.environment_patterns], in the insertion order that the loop of
    [detect_environment] follows. *)
Definition environment_patterns : list (string * list string) :=
  [ ("test", ["test"; "dev"; "staging"; "qa"; "sandbox"; "demo"]);
    ("production", ["prod"; "production"; "live"; "main"]);
    ("development", ["dev"; "development"; "feature"; "branch"]) ].

(** [f"{resource_arn} {' '.join(tags.values())}".lower()] *)
Definition text_to_analyze (resource_arn : string) (tags : list (string * string)) : string :=
  Py.lower (resource_arn ++ " " ++ Py.join " " (values tags)).

(** The [for env, patterns in ...items()] loop and the [return 'unknown']
    that follows it. *)
Fixpoint detect_loop (text : string) (items : list (string * list string)) : string :=
  match items with
  | [] => "unknown"
  | (env, patterns) :: rest =>
      if Py.any_in text patterns then env else detect_loop text rest
  end.

Definition detect_environment (resource_arn : string) (tags : list (string * string)) : string :=
  detect_loop (text_to_analyze resource_arn tags) environment_patterns.

Definition risk_mapping : list (string * string) :=
  [ ("production", "HIGH"); ("staging", "MEDIUM"); ("test", "LOW");
    ("development", "LOW"); ("unknown", "MEDIUM") ].

Definition assess_environment_risk (environment : string) : string :=
  Py.dict_get risk_mapping environment "MEDIUM".

Definition analyze_environment_context (finding : Finding.t) : EnvironmentContext.t :=
  match Finding.get_Resources finding with
  | [] => EnvironmentContext.mk "unknown" "MEDIUM" false false
  | resource :: _ =>
      let resource_arn := Resource.get_Id resource in
      let tags := Resource.get_Tags resource in
      let environment := detect_environment resource_arn tags in
      let risk_level := assess_environment_risk environment in
      EnvironmentContext.mk environment risk_level
        (String.eqb environment "production")
        (String.eqb environment "production")
  end.

End EnvironmentAnalyzer.

(* ================================================================== *)
(** * class BusinessContextAnalyzer *)
(* ================================================================== *)

Module BusinessContextAnalyzer.

Definition load_critical_resources : list string :=
  [ "arn:aws:iam::*:root";
    "arn:aws:s3:::production-data-*";
    "arn:aws:rds:*:*:db:production-*" ].

Definition load_business_exceptions : list string :=
  [ "IAM.1:development:test-account";
    "S3.1:staging:demo-bucket";
    "EC2.1:dev:test-instance" ].

Definition critical_resources : list string := load_critical_resources.
Definition business_exceptions : list string := load_business_exceptions.

(** [pattern.replace('*', '') in resource_id] *)
Definition matches_pattern (resource_id pattern : string) : bool :=
  Py.contains resource_id (Py.remove_char "*" pattern).

Definition is_critical_resource (resource_id : string) : bool :=
  existsb (matches_pattern resource_id) critical_resources.

Definition generate_finding_key (finding : Finding.t) : string :=
  let generator_id := Finding.get_GeneratorId finding in
  let account_id := Finding.get_AwsAccountId finding in
  let resources := Finding.get_Resources finding in
  let parts := Py.split "/" generator_id in
  let service_control :=
    if (2 <=? List.length parts)%nat then Py.last_item parts else generator_id in
  let env :=
    match resources with
    | [] => "unknown"
    | r :: _ => Py.dict_get (Resource.get_Tags r) "Environment" "unknown"
    end in
  service_control ++ ":" ++ env ++ ":" ++ account_id.

Definition has_business_exception (finding : Finding.t) : bool :=
  Py.mem (generate_finding_key finding) business_exceptions.

Definition assess_business_impact (finding : Finding.t)
    (is_critical has_exception : bool) : string :=
  if is_critical then "HIGH"
  else if has_exception then "LOW"
  else
    let severity := Finding.get_Severity_Label finding in
    if Py.mem severity ["HIGH"; "CRITICAL"] then "MEDIUM" else "LOW".

Definition analyze_business_context (finding : Finding.t) : BusinessContext.t :=
  match Finding.get_Resources finding with
  | [] => BusinessContext.mk false false "UNKNOWN" false
  | r :: _ =>
      let resource_id := Resource.get_Id r in
      let is_critical := is_critical_resource resource_id in
      let has_exception := has_business_exception finding in
      let business_impact := assess_business_impact finding is_critical has_exception in
      BusinessContext.mk is_critical has_exception business_impact
        (is_critical || has_exception)
  end.

End BusinessContextAnalyzer.

(* ================================================================== *)
(** * class FalsePositiveFeatureExtractor *)
(* ================================================================== *)

Module FalsePositiveFeatureExtractor.

Section WithStr.

(** [str(finding)], the text Python prints for the whole dictionary: it is
    left open, every result below holds for whatever text it is. *)
Variable py_str : Finding.t -> string.

Definition extract_environment_score (finding : Finding.t) : Q :=
  let context := EnvironmentAnalyzer.analyze_environment_context finding in
  if Py.mem (EnvironmentContext.environment context) ["test"; "development"; "staging"]
  then 0.9
  else if String.eqb (EnvironmentContext.environment context) "production" then 0.1
  else 0.5.

Definition extract_historical_pattern_score (finding : Finding.t) : Q := 0.5.

Definition extract_business_exception_score (finding : Finding.t) : Q :=
  let context := BusinessContextAnalyzer.analyze_business_context finding in
  if BusinessContext.has_business_exception context then 0.8
  else if BusinessContext.is_critical_resource context then 0.2
  else 0.5.

Definition extract_temporal_pattern_score (finding : Finding.t) : Q := 0.5.

Definition extract_severity_mismatch_score (finding : Finding.t) : Q :=
  let severity := Finding.get_Severity_Label finding in
  if String.eqb severity "CRITICAL" && Py.contains (Py.lower (py_str finding)) "test"
  then 0.8
  else if String.eqb severity "LOW" && Py.contains (Py.lower (py_str finding)) "production"
  then 0.3
  else 0.5.

Definition extract_features (finding : Finding.t) : list Q :=
  [ extract_environment_score finding;
    extract_historical_pattern_score finding;
    extract_business_exception_score finding;
    extract_temporal_pattern_score finding;
    extract_severity_mismatch_score finding ].

End WithStr.

End FalsePositiveFeatureExtractor.

(* ================================================================== *)
(** * class MLClassifier *)
(* ================================================================== *)

Module MLClassifier.

(** Environment, Historical, Business, Temporal, Severity *)
Definition weights : list Q := [0.3; 0.25; 0.2; 0.15; 0.1].

Definition simple_classification (features : list Q) : Q :=
  let weighted_sum :=
    Py.sum (map (fun fw => fst fw * snd fw) (Py.zip features weights)) in
  Py.min (Py.max weighted_sum 0.0) 1.0.

(** [features[i]] raises [IndexError] out of range: [None] here. *)
Definition generate_reasoning (finding : Finding.t) (features : list Q)
    (probability : Q) : option string :=
  let reasoning_parts : list string := [] in
  match nth_error features 0 with None => None | Some f0 =>
  let reasoning_parts :=
    if Py.gt f0 0.8
    then (reasoning_parts ++ ["Finding is in non-production environment"])%list
    else reasoning_parts in
  match nth_error features 1 with None => None | Some f1 =>
  let reasoning_parts :=
    if Py.gt f1 0.7
    then (reasoning_parts ++ ["Similar findings were previously false positives"])%list
    else reasoning_parts in
  match nth_error features 2 with None => None | Some f2 =>
  let reasoning_parts :=
    if Py.gt f2 0.6
    then (reasoning_parts ++ ["Finding matches known business exception pattern"])%list
    else reasoning_parts in
  match nth_error features 3 with None => None | Some f3 =>
  let reasoning_parts :=
    if Py.gt f3 0.7
    then (reasoning_parts ++ ["Finding appears to be temporary"])%list
    else reasoning_parts in
  Some (match reasoning_parts with
        | [] => "No specific indicators"
        | _ => Py.join "; " reasoning_parts
        end)
  end end end end.

(** The body of [classify_finding] once the features are extracted. *)
Definition classify_features (finding : Finding.t) (features : list Q)
    : option FalsePositiveClassification.t :=
  let probability := simple_classification features in
  match generate_reasoning finding features probability with
  | Some reasoning =>
      Some (FalsePositiveClassification.mk (Py.gt probability 0.7) probability reasoning)
  | None => None (* [except Exception: return None] *)
  end.

Definition classify_finding (py_str : Finding.t -> string) (finding : Finding.t)
    : option FalsePositiveClassification.t :=
  let features := FalsePositiveFeatureExtractor.extract_features py_str finding in
  classify_features finding features.

End MLClassifier.

(* ================================================================== *)
(** * class PatternRecognitionEngine *)
(* ================================================================== *)

Module PatternRecognitionEngine.

(** The dictionary that [analyze_outcomes] returns: with no similar finding
    it holds the rate only. *)
Record outcome_analysis := mk_outcome {
  false_positive_rate : option Q;
  total_findings : option nat;
  false_positive_count : option nat
}.

Definition get_false_positive_rate (o : outcome_analysis) : Q :=
  match false_positive_rate o with Some r => r | None => 0.5 end.
Definition get_total_findings (o : outcome_analysis) : nat :=
  match total_findings o with Some n => n | None => 0%nat end.

(** The history store is not queried yet: the source returns the empty list. *)
Definition find_similar_findings (finding : Finding.t) : list HistoricalFinding.t := [].

(** [f.get('WorkflowState') == 'SUPPRESSED'] *)
Definition is_suppressed (f : HistoricalFinding.t) : bool :=
  match HistoricalFinding.WorkflowState f with
  | Some s => String.eqb s "SUPPRESSED"
  | None => false
  end.

Definition analyze_outcomes (similar_findings : list HistoricalFinding.t) : outcome_analysis :=
  match similar_findings with
  | [] => mk_outcome (Some 0.5) None None
  | _ =>
      let false_positive_count := List.length (filter is_suppressed similar_findings) in
      let total_count := List.length similar_findings in
      mk_outcome
        (Some (if (0 <? total_count)%nat
               then Py.of_nat false_positive_count / Py.of_nat total_count
               else 0.5))
        (Some total_count)
        (Some false_positive_count)
  end.

Definition calculate_pattern_probability (o : outcome_analysis) : Q :=
  let false_positive_rate := get_false_positive_rate o in
  let total_findings := get_total_findings o in
  if (10 <? total_findings)%nat then false_positive_rate
  else if (5 <? total_findings)%nat then false_positive_rate * 0.8
  else 0.5.

Definition generate_pattern_reasoning (o : outcome_analysis) : string :=
  let false_positive_rate := get_false_positive_rate o in
  let total_findings := get_total_findings o in
  if (total_findings =? 0)%nat then "No similar historical findings found"
  else
    let percentage := false_positive_rate * 100 in
    Py.format_0f percentage ++ "% of similar findings were false positives".

(** Nothing in the [try] block raises here, so the [except] branch (the
    neutral 0.5 record) is not taken. *)
Definition analyze_historical_patterns (finding : Finding.t) : PatternAnalysis.t :=
  let similar_findings := find_similar_findings finding in
  let outcome := analyze_outcomes similar_findings in
  let false_positive_probability := calculate_pattern_probability outcome in
  PatternAnalysis.mk
    (List.length similar_findings)
    (get_false_positive_rate outcome)
    false_positive_probability
    (generate_pattern_reasoning outcome).

End PatternRecognitionEngine.

(* ================================================================== *)
(** * class TemporalAnalyzer *)
(* ================================================================== *)

Module TemporalAnalyzer.

Definition is_temporary_finding (finding : Finding.t) : bool := false.
Definition analyze_recurrence_pattern (finding : Finding.t) : string := "NONE".
Definition is_in_maintenance_window (finding : Finding.t) : bool := false.

Definition calculate_temporal_risk (is_temporary : bool) (recurrence_pattern : string)
    (in_maintenance_window : bool) : string :=
  if is_temporary then "LOW"
  else if in_maintenance_window then "MEDIUM"
  else if negb (String.eqb recurrence_pattern "NONE") then "MEDIUM"
  else "HIGH".

Definition analyze_temporal_context (finding : Finding.t) : TemporalAnalysis.t :=
  let is_temporary := is_temporary_finding finding in
  let recurrence_pattern := analyze_recurrence_pattern finding in
  let in_maintenance_window := is_in_maintenance_window finding in
  TemporalAnalysis.mk is_temporary recurrence_pattern in_maintenance_window
    (calculate_temporal_risk is_temporary recurrence_pattern in_maintenance_window).

End TemporalAnalyzer.

(* ================================================================== *)
(** * class FalsePositiveAnalysisLambda *)
(* ================================================================== *)

(** The [classification] dictionary of the response. *)
Module Classification.
Record t := mk {
  is_false_positive : bool;
  confidence : Q;
  reasoning : string;
  recommended_action : string
}.
End Classification.

Module ProcessingMetadata.
Record t := mk {
  processing_time_ms : Q;
  models_used : list string;
  timestamp : string
}.
End ProcessingMetadata.

(** The dictionary that [analyze_finding] returns. *)
Module Response.
Record t := mk {
  analysis_id : string;
  finding_id : string;
  classification : Classification.t;
  environment_analysis : EnvironmentContext.t;
  ml_classification : option FalsePositiveClassification.t;
  pattern_analysis : option PatternAnalysis.t;
  business_context : option BusinessContext.t;
  temporal_analysis : option TemporalAnalysis.t;
  processing_metadata : ProcessingMetadata.t
}.
End Response.

(** What the clock gives during one call: the elapsed milliseconds and the
    ISO text of [datetime.now()]. *)
Module Clock.
Record t := mk { elapsed_ms : Q; now_isoformat : string }.
End Clock.

Inductive exn := KeyError (key : string).

Inductive outcome (A : Type) :=
| Raised (e : exn)
| Returned (a : A).
Arguments Raised {A} e.
Arguments Returned {A} a.

Module FalsePositiveAnalysisLambda.

Definition calculate_environment_score (environment_analysis : EnvironmentContext.t) : Q :=
  if Py.mem (EnvironmentContext.environment environment_analysis)
       ["test"; "development"; "staging"] then 0.9
  else if String.eqb (EnvironmentContext.environment environment_analysis) "production"
  then 0.1
  else 0.5.

Definition calculate_business_score (business_context : BusinessContext.t) : Q :=
  if BusinessContext.has_business_exception business_context then 0.8
  else if BusinessContext.is_critical_resource business_context then 0.2
  else 0.5.

Definition calculate_temporal_score (temporal_analysis : TemporalAnalysis.t) : Q :=
  if TemporalAnalysis.is_temporary temporal_analysis then 0.8
  else if TemporalAnalysis.in_maintenance_window temporal_analysis then 0.7
  else 0.5.

(** One [if analysis:] block of the combiner: the score is appended, and the
    sentence too when the block's own test fires. *)
Definition record_result (score : Q) (fires : bool) (sentence : string)
    (acc : list Q * list string) : list Q * list string :=
  let '(confidence_scores, reasoning_parts) := acc in
  ((confidence_scores ++ [score])%list,
   if fires then (reasoning_parts ++ [sentence])%list else reasoning_parts).

Definition combine_analysis_results
    (environment_analysis : option EnvironmentContext.t)
    (ml_classification : option FalsePositiveClassification.t)
    (pattern_analysis : option PatternAnalysis.t)
    (business_context : option BusinessContext.t)
    (temporal_analysis : option TemporalAnalysis.t) : Classification.t :=
  let acc : list Q * list string := ([], []) in
  (* Environment-based scoring *)
  let acc :=
    match environment_analysis with
    | Some e =>
        let env_score := calculate_environment_score e in
        record_result env_score (Py.gt env_score 0.8)
          "Finding is in non-production environment" acc
    | None => acc
    end in
  (* ML-based scoring *)
  let acc :=
    match ml_classification with
    | Some m =>
        record_result (FalsePositiveClassification.confidence m)
          (Py.gt (FalsePositiveClassification.confidence m) 0.7)
          (FalsePositiveClassification.reasoning m) acc
    | None => acc
    end in
  (* Pattern-based scoring *)
  let acc :=
    match pattern_analysis with
    | Some p =>
        let pattern_score := PatternAnalysis.pattern_confidence p in
        record_result pattern_score (Py.gt pattern_score 0.8)
          (PatternAnalysis.pattern_reasoning p) acc
    | None => acc
    end in
  (* Business context scoring *)
  let acc :=
    match business_context with
    | Some b =>
        let business_score := calculate_business_score b in
        record_result business_score (BusinessContext.has_business_exception b)
          "Finding matches known business exception" acc
    | None => acc
    end in
  (* Temporal scoring *)
  let acc :=
    match temporal_analysis with
    | Some t =>
        let temporal_score := calculate_temporal_score t in
        record_result temporal_score (TemporalAnalysis.is_temporary t)
          "Finding appears to be temporary" acc
    | None => acc
    end in
  let '(confidence_scores, reasoning_parts) := acc in
  let final_confidence :=
    match confidence_scores with
    | [] => 0.5
    | _ => Py.sum confidence_scores / Py.len confidence_scores
    end in
  let is_false_positive := Py.gt final_confidence 0.7 in
  let recommended_action :=
    if Py.gt final_confidence 0.9 then "SUPPRESS"
    else if Py.gt final_confidence 0.7 then "DOWNGRADE"
    else "REVIEW" in
  Classification.mk is_false_positive final_confidence
    (match reasoning_parts with
     | [] => "No specific indicators"
     | _ => Py.join "; " reasoning_parts
     end)
    recommended_action.

Definition get_models_used (options : Options.t) : list string :=
  let models := ["environment_analyzer"] in
  let models :=
    if Options.get (Options.include_ml_classification options)
    then (models ++ ["ml_classifier"])%list else models in
  let models :=
    if Options.get (Options.include_pattern_analysis options)
    then (models ++ ["pattern_recognizer"])%list else models in
  let models :=
    if Options.get (Options.include_business_context options)
    then (models ++ ["business_analyzer"])%list else models in
  let models :=
    if Options.get (Options.include_temporal_analysis options)
    then (models ++ ["temporal_analyzer"])%list else models in
  models.

Section WithStr.

Variable py_str : Finding.t -> string.

Definition analyze_finding (clock : Clock.t) (finding : Finding.t) (options : Options.t)
    : outcome Response.t :=
  match Finding.Id finding with
  | None => Raised (KeyError "Id")
  | Some finding_Id =>
      let analysis_id := "fp-analysis-" ++ Py.last_item (Py.split "/" finding_Id) in
      let environment_analysis :=
        EnvironmentAnalyzer.analyze_environment_context finding in
      let ml_classification :=
        if Options.get (Options.include_ml_classification options)
        then MLClassifier.classify_finding py_str finding else None in
      let pattern_analysis :=
        if Options.get (Options.include_pattern_analysis options)
        then Some (PatternRecognitionEngine.analyze_historical_patterns finding)
        else None in
      let business_context :=
        if Options.get (Options.include_business_context options)
        then Some (BusinessContextAnalyzer.analyze_business_context finding)
        else None in
      let temporal_analysis :=
        if Options.get (Options.include_temporal_analysis options)
        then Some (TemporalAnalyzer.analyze_temporal_context finding)
        else None in
      let classification :=
        combine_analysis_results (Some environment_analysis) ml_classification
          pattern_analysis business_context temporal_analysis in
      Returned
        (Response.mk analysis_id finding_Id classification
           environment_analysis ml_classification pattern_analysis
           business_context temporal_analysis
           (ProcessingMetadata.mk (Clock.elapsed_ms clock)
              (get_models_used options) (Clock.now_isoformat clock)))
  end.

End WithStr.

End FalsePositiveAnalysisLambda.

(* ================================================================== *)
(** * Concrete findings and options *)
(* ================================================================== *)

(** The finding that the test suite builds with [create_test_finding]: one
    resource, the root account ARN by default, and the tags
    [{"Environment": environment, "Project": "test-project"}]. *)
Definition create_test_finding (environment severity : string)
    (tags : list (string * string)) : Finding.t :=
  Finding.mk
    (Some "arn:aws:securityhub:us-west-2:123456789012:subscription/aws-foundational-security-best-practices/v/1.0.0/IAM.1/finding/test-1")
    (Some "aws-foundational-security-best-practices/v/1.0.0/IAM.1")
    (Some "123456789012")
    (Some (Some severity))
    (Some [Resource.mk (Some "arn:aws:iam::123456789012:root") (Some tags)])
    (Some "Test finding for false positive analysis")
    (Some "This is a test finding for false positive analysis validation.").

Definition default_tags (environment : string) : list (string * string) :=
  [("Environment", environment); ("Project", "test-project")].

(** [test_development_environment_false_positive] *)
Definition development_finding : Finding.t :=
  create_test_finding "development" "MEDIUM" (default_tags "development").

(** [test_production_environment_true_positive] *)
Definition production_finding : Finding.t :=
  create_test_finding "production" "HIGH" (default_tags "production").

(** The options of a request that names none, and of one that disables the
    four optional analyzers. *)
Definition default_options : Options.t := Options.mk None None None None.
Definition all_disabled : Options.t :=
  Options.mk (Some false) (Some false) (Some false) (Some false).

Definition sample_clock : Clock.t := Clock.mk 12 "2023-01-01T00:00:00".

(** A stand-in for [str(finding)] in the closed examples: the texts of the
    finding, separated by spaces.  The examples use findings of severity
    MEDIUM or HIGH, for which the source does not evaluate [str(finding)]. *)
Definition sample_str (f : Finding.t) : string :=
  let text (o : option string) := match o with Some s => s | None => "" end in
  let resource_text (r : Resource.t) :=
    Resource.get_Id r ++ " "
    ++ Py.join " " (map (fun kv => fst kv ++ " " ++ snd kv) (Resource.get_Tags r)) in
  Py.join " "
    ([ text (Finding.Id f); Finding.get_GeneratorId f; Finding.get_AwsAccountId f;
       Finding.get_Severity_Label f; text (Finding.Title f);
       text (Finding.Description f) ]
     ++ map resource_text (Finding.get_Resources f)).

(** Inputs of the combiner for the examples. *)
Definition test_context : EnvironmentContext.t :=
  EnvironmentContext.mk "test" "LOW" false false.
Definition classifier_result (confidence : Q) : FalsePositiveClassification.t :=
  FalsePositiveClassification.mk (Py.gt confidence 0.7) confidence "No specific indicators".

(* ================================================================== *)
(** * Specification-side definitions *)
(* ================================================================== *)

Module Spec.

(** A score or a confidence is a number of the closed interval [0,1]. *)
Definition unit_interval (x : Q) : Prop := 0 <= x <= 1.

(** The arithmetic mean of a list of scores. *)
Definition arithmetic_mean (xs : list Q) : Q :=
  fold_right Qplus 0 xs / inject_Z (Z.of_nat (List.length xs)).

Definition score_of {A} (score : A -> Q) (result : option A) : list Q :=
  match result with Some a => [score a] | None => [] end.

(** The scores of exactly the analyzers that produced a result. *)
Definition present_scores
    (environment_analysis : option EnvironmentContext.t)
    (ml_classification : option FalsePositiveClassification.t)
    (pattern_analysis : option PatternAnalysis.t)
    (business_context : option BusinessContext.t)
    (temporal_analysis : option TemporalAnalysis.t) : list Q :=
  (score_of FalsePositiveAnalysisLambda.calculate_environment_score environment_analysis
   ++ score_of FalsePositiveClassification.confidence ml_classification
   ++ score_of PatternAnalysis.pattern_confidence pattern_analysis
   ++ score_of FalsePositiveAnalysisLambda.calculate_business_score business_context
   ++ score_of FalsePositiveAnalysisLambda.calculate_temporal_score temporal_analysis)%list.

(** How aggressively an action suppresses: REVIEW < DOWNGRADE < SUPPRESS. *)
Definition aggressiveness (action : string) : nat :=
  if String.eqb action "SUPPRESS" then 2
  else if String.eqb action "DOWNGRADE" then 1
  else 0.

(** [x] clamped to [0,1]. *)
Definition clamp (x : Q) : Q :=
  if Qlt_le_dec x 0 then 0 else if Qlt_le_dec 1 x then 1 else x.

(** The fixed-weight linear combination of the five features. *)
Definition linear_combination (env hist biz temp sev : Q) : Q :=
  0.30 * env + 0.25 * hist + 0.20 * biz + 0.15 * temp + 0.10 * sev.

(** The number of historical findings whose workflow state is SUPPRESSED. *)
Definition suppressed (h : HistoricalFinding.t) : Prop :=
  HistoricalFinding.WorkflowState h = Some "SUPPRESSED".

Definition suppressed_dec (h : HistoricalFinding.t) : {suppressed h} + {~ suppressed h}.
Proof.
  unfold suppressed. destruct (HistoricalFinding.WorkflowState h) as [s|].
  - destruct (string_dec s "SUPPRESSED") as [-> | N].
    + left. reflexivity.
    + right. congruence.
  - right. discriminate.
Defined.

Fixpoint suppressed_count (history : list HistoricalFinding.t) : nat :=
  match history with
  | [] => 0
  | h :: rest =>
      if suppressed_dec h then S (suppressed_count rest) else suppressed_count rest
  end.

Definition false_positive_rate (history : list HistoricalFinding.t) : Q :=
  match history with
  | [] => 0.5
  | _ => Py.of_nat (suppressed_count history) / Py.of_nat (List.length history)
  end.

Definition pattern_confidence (history : list HistoricalFinding.t) : Q :=
  let count := List.length history in
  if (10 <? count)%nat then false_positive_rate history
  else if (5 <? count)%nat then 0.8 * false_positive_rate history
  else 0.5.

(** The three ordered keyword sets and the tier of a lower-cased text: the
    first set with a keyword in the text decides. *)
Definition test_like : list string := ["test"; "dev"; "staging"; "qa"; "sandbox"; "demo"].
Definition production_like : list string := ["prod"; "production"; "live"; "main"].
Definition development_like : list string := ["dev"; "development"; "feature"; "branch"].

Definition has_keyword (text : string) (keywords : list string) : Prop :=
  exists k, In k keywords /\ Py.contains text k = true.

Inductive tier_of_text (text : string) : string -> Prop :=
| tier_test : has_keyword text test_like -> tier_of_text text "test"
| tier_production :
    ~ has_keyword text test_like -> has_keyword text production_like ->
    tier_of_text text "production"
| tier_development :
    ~ has_keyword text test_like -> ~ has_keyword text production_like ->
    has_keyword text development_like -> tier_of_text text "development"
| tier_unknown :
    ~ has_keyword text test_like -> ~ has_keyword text production_like ->
    ~ has_keyword text development_like -> tier_of_text text "unknown".

(** The fixed risk table. *)
Definition risk_of_tier (tier : string) : string :=
  if String.eqb tier "production" then "HIGH"
  else if String.eqb tier "staging" then "MEDIUM"
  else if String.eqb tier "test" then "LOW"
  else if String.eqb tier "development" then "LOW"
  else "MEDIUM".

(** The text the Environment Analyzer inspects for a resource: identifier
    and tag values, in lower case. *)
Definition resource_text (r : Resource.t) : string :=
  Py.lower (Resource.get_Id r ++ " " ++ Py.join " " (values (Resource.get_Tags r))).

(** A keyword occurs in a text, in any letter case. *)
Definition occurs_in (keyword text : string) : Prop :=
  Py.contains (Py.lower text) keyword = true.

(** A keyword occurs in the identifier or in a tag value of a resource. *)
Definition mentions (resource_arn : string) (tags : list (string * string))
    (keyword : string) : Prop :=
  occurs_in keyword resource_arn
  \/ exists v, In v (values tags) /\ occurs_in keyword v.

(** The other analyses of a response, as the combiner received them. *)
Definition optional_scores (r : Response.t) : list Q :=
  (score_of FalsePositiveClassification.confidence (Response.ml_classification r)
   ++ score_of PatternAnalysis.pattern_confidence (Response.pattern_analysis r)
   ++ score_of FalsePositiveAnalysisLambda.calculate_business_score (Response.business_context r)
   ++ score_of FalsePositiveAnalysisLambda.calculate_temporal_score (Response.temporal_analysis r))%list.

End Spec.

(* ================================================================== *)
(** * [send_metrics] and [lambda_handler] *)
(* ================================================================== *)

Module Handler.

(** The event of an invocation, read with [event.get('finding')] and
    [event.get('analysis_options', {})]. *)
Record event := mk_event {
  finding : option Finding.t;
  analysis_options : option Options.t
}.

(** The dictionary [{'statusCode': ..., 'body': ...}] the handler returns. *)
Record reply := mk_reply { statusCode : Z; body : string }.

(** What a call does besides returning: the log records and the metric data
    sent to CloudWatch (processing time, confidence, false-positive flag). *)
Inductive effect :=
| logger_error (message : string)
| logger_warning (message : string)
| put_metric_data (ProcessingTime ConfidenceScore IsFalsePositive : Q).

(** The exceptions raised in the handler; [str] is the text of [str(e)]. *)
Inductive error :=
| ValueError (message : string)
| TypeError (message : string).

Definition str (e : error) : string :=
  match e with ValueError m => m | TypeError m => m end.

Inductive raises (A : Type) :=
| Raise (e : error)
| Return (a : A).
Arguments Raise {A} e.
Arguments Return {A} a.

(** The objects [result] can be.  [analyze_finding] is an [async def]:
    calling it builds a coroutine object and runs none of its body. *)
Inductive value :=
| coroutine (body : outcome Response.t)
| dict (r : Response.t).

(** [result[key]]: a coroutine object has no subscript. *)
Definition getitem {A} (result : value) (field : Response.t -> A) : raises A :=
  match result with
  | dict r => Return (field r)
  | coroutine _ => Raise (TypeError "'coroutine' object is not subscriptable")
  end.

(** The metric data are built, subscript by subscript, before the call to
    CloudWatch; an exception on the way is logged as a warning. *)
Definition send_metrics (result : value) : list effect :=
  match getitem result Response.processing_metadata with
  | Raise e => [logger_warning ("Failed to send metrics: " ++ str e)]
  | Return metadata =>
      match getitem result Response.classification with
      | Raise e => [logger_warning ("Failed to send metrics: " ++ str e)]
      | Return classification =>
          [put_metric_data
             (ProcessingMetadata.processing_time_ms metadata)
             (Classification.confidence classification)
             (if Classification.is_false_positive classification then 1 else 0)]
      end
  end.

(** [json.dumps({'error': message})] for a message with no character that
    JSON escapes. *)
Definition json_dumps_error (message : string) : string :=
  let quote := String "034"%char EmptyString in
  "{" ++ quote ++ "error" ++ quote ++ ": " ++ quote ++ message ++ quote ++ "}".

Section WithRuntime.

(** [str(finding)] as before; [bool(finding)], whether the dictionary has a
    key at all (the record lists only the keys the module reads); and the
    text [json.dumps] gives for a response dictionary. *)
Variable py_str : Finding.t -> string.
Variable truthy : Finding.t -> bool.
Variable json_dumps_response : Response.t -> string.
Variable clock : Clock.t.

Definition json_dumps (result : value) : raises string :=
  match result with
  | dict r => Return (json_dumps_response r)
  | coroutine _ => Raise (TypeError "Object of type coroutine is not JSON serializable")
  end.

(** The [except Exception] branch of the handler. *)
Definition on_exception (e : error) (done : list effect) : reply * list effect :=
  (mk_reply 500 (json_dumps_error (str e)),
   (done ++ [logger_error ("Error in lambda_handler: " ++ str e)])%list).

Definition lambda_handler (e : event) : reply * list effect :=
  let options :=
    match analysis_options e with
    | Some o => o
    | None => Options.mk None None None None
    end in
  match finding e with
  | Some f =>
      if truthy f then
        (* the call is not awaited *)
        let result :=
          coroutine (FalsePositiveAnalysisLambda.analyze_finding py_str clock f options) in
        let sent := send_metrics result in
        match json_dumps result with
        | Return text => (mk_reply 200 text, sent)
        | Raise err => on_exception err sent
        end
      else on_exception (ValueError "No finding provided in event") []
  | None => on_exception (ValueError "No finding provided in event") []
  end.

End WithRuntime.

End Handler.

(* ================================================================== *)
(** * Further specification-side definitions *)
(* ================================================================== *)

Module Props.

(** A text without the given character. *)
Fixpoint free_of (c : ascii) (s : string) : Prop :=
  match s with
  | EmptyString => True
  | String d s' => d <> c /\ free_of c s'
  end.

(** The number of occurrences of a character. *)
Fixpoint count_char (c : ascii) (s : string) : nat :=
  match s with
  | EmptyString => 0
  | String d s' => (if Ascii.eqb d c then 1 else 0) + count_char c s'
  end.

(** A resource with every tag value in lower case. *)
Definition lower_tags (tags : list (string * string)) : list (string * string) :=
  map (fun kv => (fst kv, Py.lower (snd kv))) tags.

(** The optional analyzers by the name [models_used] gives them. *)
Definition enabled (options : Options.t) (name : string) : bool :=
  if String.eqb name "ml_classifier"
  then Options.get (Options.include_ml_classification options)
  else if String.eqb name "pattern_recognizer"
  then Options.get (Options.include_pattern_analysis options)
  else if String.eqb name "business_analyzer"
  then Options.get (Options.include_business_context options)
  else if String.eqb name "temporal_analyzer"
  then Options.get (Options.include_temporal_analysis options)
  else false.

Definition present {A} (o : option A) : bool :=
  match o with Some _ => true | None => false end.

Definition carried (r : Response.t) (name : string) : bool :=
  if String.eqb name "ml_classifier" then present (Response.ml_classification r)
  else if String.eqb name "pattern_recognizer" then present (Response.pattern_analysis r)
  else if String.eqb name "business_analyzer" then present (Response.business_context r)
  else if String.eqb name "temporal_analyzer" then present (Response.temporal_analysis r)
  else false.

Definition optional_analyzers : list string :=
  ["ml_classifier"; "pattern_recognizer"; "business_analyzer"; "temporal_analyzer"].

(** The account names of the approved exceptions. *)
Definition exception_accounts : list string :=
  ["test-account"; "demo-bucket"; "test-instance"].

(** A finding that matches the first approved exception. *)
Definition excepted_finding : Finding.t :=
  Finding.mk
    (Some "arn:aws:securityhub:us-west-2:test-account:subscription/IAM.1/finding/7")
    (Some "aws-foundational-security-best-practices/v/1.0.0/IAM.1")
    (Some "test-account")
    (Some (Some "MEDIUM"))
    (Some [Resource.mk (Some "arn:aws:iam::test-account:user/build")
                       (Some [("Environment", "development")])])
    None None.

(** A history of twelve findings, eleven of them suppressed. *)
Definition long_history : list HistoricalFinding.t :=
  HistoricalFinding.mk (Some "NEW")
  :: repeat (HistoricalFinding.mk (Some "SUPPRESSED")) 11.

(** The request enables the four optional analyzers. *)
Definition all_enabled (options : Options.t) : Prop :=
  Options.get (Options.include_ml_classification options) = true
  /\ Options.get (Options.include_pattern_analysis options) = true
  /\ Options.get (Options.include_business_context options) = true
  /\ Options.get (Options.include_temporal_analysis options) = true.

End Props.

(* ================================================================== *)
(** * The scores as IEEE doubles *)
(* ================================================================== *)

Module Binary64.

Import PrimFloat FloatOps SpecFloat.
#[local] Set Warnings "-inexact-float".
Local Open Scope float_scope.

(** ** Python built-ins on [float] *)

(** [x > y] and [x < y]: false whenever an operand is not a number. *)
Definition gt (x y : float) : bool := ltb y x.
Definition lt (x y : float) : bool := ltb x y.

(** [max(a, b)] and [min(a, b)]: the first argument is kept unless the second
    is strictly beyond it. *)
Definition max (a b : float) : float := if gt b a then b else a.
Definition min (a b : float) : float := if lt b a then b else a.

(** [sum(xs)]: starts from 0 and adds from the left, each addition rounded
    (as CPython does up to 3.11; later versions compensate the rounding
    errors of the additions). *)
Definition sum (xs : list float) : float := fold_left add xs 0.

(** An [int] count as a [float], exact for the counts a list can have; the
    true division of two counts is the division of these. *)
Definition of_nat (n : nat) : float := of_uint63 (Uint63.of_Z (Z.of_nat n)).
Definition len {A} (xs : list A) : float := of_nat (List.length xs).

(** The rational number a finite double is. *)
Definition magnitude (m : positive) (e : Z) : Q :=
  (inject_Z (Zpos m) * Qpower (2#1) e)%Q.

(** [f"{x:.0f}"]: the exact value rounded to the nearest integer, ties to
    even, in decimal. *)
Definition format_0f (x : float) : string :=
  match Prim2SF x with
  | S754_nan => "nan"
  | S754_infinity s => if s then "-inf" else "inf"
  | S754_zero s => if s then "-0" else "0"
  | S754_finite s m e =>
      (if s then "-" else "")
      ++ NilZero.string_of_int (Z.to_int (Py.round_half_even (magnitude m e)))
  end.

(** ** The data classes with a [float] field *)

Module FalsePositiveClassification.
Record t := mk {
  is_false_positive : bool;
  confidence : float;
  reasoning : string
}.
End FalsePositiveClassification.

Module PatternAnalysis.
Record t := mk {
  similar_findings_count : nat;
  false_positive_rate : float;
  pattern_confidence : float;
  pattern_reasoning : string
}.
End PatternAnalysis.

Module Classification.
Record t := mk {
  is_false_positive : bool;
  confidence : float;
  reasoning : string;
  recommended_action : string
}.
End Classification.

Module ProcessingMetadata.
Record t := mk {
  processing_time_ms : float;
  models_used : list string;
  timestamp : string
}.
End ProcessingMetadata.

Module Response.
Record t := mk {
  analysis_id : string;
  finding_id : string;
  classification : Classification.t;
  environment_analysis : EnvironmentContext.t;
  ml_classification : option FalsePositiveClassification.t;
  pattern_analysis : option PatternAnalysis.t;
  business_context : option BusinessContext.t;
  temporal_analysis : option TemporalAnalysis.t;
  processing_metadata : ProcessingMetadata.t
}.
End Response.

Module Clock.
Record t := mk { elapsed_ms : float; now_isoformat : string }.
End Clock.

(** The functions without a number in them are those of the modules above. *)
Definition get_models_used := FalsePositiveAnalysisLambda.get_models_used.
Definition find_similar_findings := PatternRecognitionEngine.find_similar_findings.
Definition is_suppressed := PatternRecognitionEngine.is_suppressed.
Definition suppressed_count := Spec.suppressed_count.

(** ** class FalsePositiveFeatureExtractor *)

Module FalsePositiveFeatureExtractor.

Section WithStr.

Variable py_str : Finding.t -> string.

Definition extract_environment_score (finding : Finding.t) : float :=
  let context := EnvironmentAnalyzer.analyze_environment_context finding in
  if Py.mem (EnvironmentContext.environment context) ["test"; "development"; "staging"]
  then 0.9
  else if String.eqb (EnvironmentContext.environment context) "production" then 0.1
  else 0.5.

Definition extract_historical_pattern_score (finding : Finding.t) : float := 0.5.

Definition extract_business_exception_score (finding : Finding.t) : float :=
  let context := BusinessContextAnalyzer.analyze_business_context finding in
  if BusinessContext.has_business_exception context then 0.8
  else if BusinessContext.is_critical_resource context then 0.2
  else 0.5.

Definition extract_temporal_pattern_score (finding : Finding.t) : float := 0.5.

Definition extract_severity_mismatch_score (finding : Finding.t) : float :=
  let severity := Finding.get_Severity_Label finding in
  if String.eqb severity "CRITICAL" && Py.contains (Py.lower (py_str finding)) "test"
  then 0.8
  else if String.eqb severity "LOW" && Py.contains (Py.lower (py_str finding)) "production"
  then 0.3
  else 0.5.

Definition extract_features (finding : Finding.t) : list float :=
  [ extract_environment_score finding;
    extract_historical_pattern_score finding;
    extract_business_exception_score finding;
    extract_temporal_pattern_score finding;
    extract_severity_mismatch_score finding ].

End WithStr.

End FalsePositiveFeatureExtractor.

(** ** class MLClassifier *)

Module MLClassifier.

Definition weights : list float := [0.3; 0.25; 0.2; 0.15; 0.1].

Definition simple_classification (features : list float) : float :=
  let weighted_sum :=
    sum (map (fun fw => fst fw * snd fw) (Py.zip features weights)) in
  min (max weighted_sum 0.0) 1.0.

Definition generate_reasoning (finding : Finding.t) (features : list float)
    (probability : float) : option string :=
  let reasoning_parts : list string := [] in
  match nth_error features 0 with None => None | Some f0 =>
  let reasoning_parts :=
    if gt f0 0.8
    then (reasoning_parts ++ ["Finding is in non-production environment"])%list
    else reasoning_parts in
  match nth_error features 1 with None => None | Some f1 =>
  let reasoning_parts :=
    if gt f1 0.7
    then (reasoning_parts ++ ["Similar findings were previously false positives"])%list
    else reasoning_parts in
  match nth_error features 2 with None => None | Some f2 =>
  let reasoning_parts :=
    if gt f2 0.6
    then (reasoning_parts ++ ["Finding matches known business exception pattern"])%list
    else reasoning_parts in
  match nth_error features 3 with None => None | Some f3 =>
  let reasoning_parts :=
    if gt f3 0.7
    then (reasoning_parts ++ ["Finding appears to be temporary"])%list
    else reasoning_parts in
  Some (match reasoning_parts with
        | [] => "No specific indicators"
        | _ => Py.join "; " reasoning_parts
        end)
  end end end end.

Definition classify_features (finding : Finding.t) (features : list float)
    : option FalsePositiveClassification.t :=
  let probability := simple_classification features in
  match generate_reasoning finding features probability with
  | Some reasoning =>
      Some (FalsePositiveClassification.mk (gt probability 0.7) probability reasoning)
  | None => None
  end.

Definition classify_finding (py_str : Finding.t -> string) (finding : Finding.t)
    : option FalsePositiveClassification.t :=
  let features := FalsePositiveFeatureExtractor.extract_features py_str finding in
  classify_features finding features.

End MLClassifier.

(** ** class PatternRecognitionEngine *)

Module PatternRecognitionEngine.

Record outcome_analysis := mk_outcome {
  false_positive_rate : option float;
  total_findings : option nat;
  false_positive_count : option nat
}.

Definition get_false_positive_rate (o : outcome_analysis) : float :=
  match false_positive_rate o with Some r => r | None => 0.5 end.
Definition get_total_findings (o : outcome_analysis) : nat :=
  match total_findings o with Some n => n | None => 0%nat end.

Definition analyze_outcomes (similar_findings : list HistoricalFinding.t) : outcome_analysis :=
  match similar_findings with
  | [] => mk_outcome (Some 0.5) None None
  | _ =>
      let false_positive_count := List.length (filter is_suppressed similar_findings) in
      let total_count := List.length similar_findings in
      mk_outcome
        (Some (if (0 <? total_count)%nat
               then of_nat false_positive_count / of_nat total_count
               else 0.5))
        (Some total_count)
        (Some false_positive_count)
  end.

Definition calculate_pattern_probability (o : outcome_analysis) : float :=
  let false_positive_rate := get_false_positive_rate o in
  let total_findings := get_total_findings o in
  if (10 <? total_findings)%nat then false_positive_rate
  else if (5 <? total_findings)%nat then false_positive_rate * 0.8
  else 0.5.

Definition generate_pattern_reasoning (o : outcome_analysis) : string :=
  let false_positive_rate := get_false_positive_rate o in
  let total_findings := get_total_findings o in
  if (total_findings =? 0)%nat then "No similar historical findings found"
  else
    let percentage := false_positive_rate * 100 in
    format_0f percentage ++ "% of similar findings were false positives".

Definition analyze_historical_patterns (finding : Finding.t) : PatternAnalysis.t :=
  let similar_findings := find_similar_findings finding in
  let outcome := analyze_outcomes similar_findings in
  let false_positive_probability := calculate_pattern_probability outcome in
  PatternAnalysis.mk
    (List.length similar_findings)
    (get_false_positive_rate outcome)
    false_positive_probability
    (generate_pattern_reasoning outcome).

End PatternRecognitionEngine.

(** ** class FalsePositiveAnalysisLambda *)

Module FalsePositiveAnalysisLambda.

Definition calculate_environment_score (environment_analysis : EnvironmentContext.t)
    : float :=
  if Py.mem (EnvironmentContext.environment environment_analysis)
       ["test"; "development"; "staging"] then 0.9
  else if String.eqb (EnvironmentContext.environment environment_analysis) "production"
  then 0.1
  else 0.5.

Definition calculate_business_score (business_context : BusinessContext.t) : float :=
  if BusinessContext.has_business_exception business_context then 0.8
  else if BusinessContext.is_critical_resource business_context then 0.2
  else 0.5.

Definition calculate_temporal_score (temporal_analysis : TemporalAnalysis.t) : float :=
  if TemporalAnalysis.is_temporary temporal_analysis then 0.8
  else if TemporalAnalysis.in_maintenance_window temporal_analysis then 0.7
  else 0.5.

Definition record_result (score : float) (fires : bool) (sentence : string)
    (acc : list float * list string) : list float * list string :=
  let '(confidence_scores, reasoning_parts) := acc in
  ((confidence_scores ++ [score])%list,
   if fires then (reasoning_parts ++ [sentence])%list else reasoning_parts).

Definition combine_analysis_results
    (environment_analysis : option EnvironmentContext.t)
    (ml_classification : option FalsePositiveClassification.t)
    (pattern_analysis : option PatternAnalysis.t)
    (business_context : option BusinessContext.t)
    (temporal_analysis : option TemporalAnalysis.t) : Classification.t :=
  let acc : list float * list string := ([], []) in
  (* Environment-based scoring *)
  let acc :=
    match environment_analysis with
    | Some e =>
        let env_score := calculate_environment_score e in
        record_result env_score (gt env_score 0.8)
          "Finding is in non-production environment" acc
    | None => acc
    end in
  (* ML-based scoring *)
  let acc :=
    match ml_classification with
    | Some m =>
        record_result (FalsePositiveClassification.confidence m)
          (gt (FalsePositiveClassification.confidence m) 0.7)
          (FalsePositiveClassification.reasoning m) acc
    | None => acc
    end in
  (* Pattern-based scoring *)
  let acc :=
    match pattern_analysis with
    | Some p =>
        let pattern_score := PatternAnalysis.pattern_confidence p in
        record_result pattern_score (gt pattern_score 0.8)
          (PatternAnalysis.pattern_reasoning p) acc
    | None => acc
    end in
  (* Business context scoring *)
  let acc :=
    match business_context with
    | Some b =>
        let business_score := calculate_business_score b in
        record_result business_score (BusinessContext.has_business_exception b)
          "Finding matches known business exception" acc
    | None => acc
    end in
  (* Temporal scoring *)
  let acc :=
    match temporal_analysis with
    | Some t =>
        let temporal_score := calculate_temporal_score t in
        record_result temporal_score (TemporalAnalysis.is_temporary t)
          "Finding appears to be temporary" acc
    | None => acc
    end in
  let '(confidence_scores, reasoning_parts) := acc in
  let final_confidence :=
    match confidence_scores with
    | [] => 0.5
    | _ => sum confidence_scores / len confidence_scores
    end in
  let is_false_positive := gt final_confidence 0.7 in
  let recommended_action :=
    if gt final_confidence 0.9 then "SUPPRESS"
    else if gt final_confidence 0.7 then "DOWNGRADE"
    else "REVIEW" in
  Classification.mk is_false_positive final_confidence
    (match reasoning_parts with
     | [] => "No specific indicators"
     | _ => Py.join "; " reasoning_parts
     end)
    recommended_action.

Section WithStr.

Variable py_str : Finding.t -> string.

Definition analyze_finding (clock : Clock.t) (finding : Finding.t) (options : Options.t)
    : outcome Response.t :=
  match Finding.Id finding with
  | None => Raised (KeyError "Id")
  | Some finding_Id =>
      let analysis_id := "fp-analysis-" ++ Py.last_item (Py.split "/" finding_Id) in
      let environment_analysis :=
        EnvironmentAnalyzer.analyze_environment_context finding in
      let ml_classification :=
        if Options.get (Options.include_ml_classification options)
        then MLClassifier.classify_finding py_str finding else None in
      let pattern_analysis :=
        if Options.get (Options.include_pattern_analysis options)
        then Some (PatternRecognitionEngine.analyze_historical_patterns finding)
        else None in
      let business_context :=
        if Options.get (Options.include_business_context options)
        then Some (BusinessContextAnalyzer.analyze_business_context finding)
        else None in
      let temporal_analysis :=
        if Options.get (Options.include_temporal_analysis options)
        then Some (TemporalAnalyzer.analyze_temporal_context finding)
        else None in
      let classification :=
        combine_analysis_results (Some environment_analysis) ml_classification
          pattern_analysis business_context temporal_analysis in
      Returned
        (Response.mk analysis_id finding_Id classification
           environment_analysis ml_classification pattern_analysis
           business_context temporal_analysis
           (ProcessingMetadata.mk (Clock.elapsed_ms clock)
              (get_models_used options) (Clock.now_isoformat clock)))
  end.

End WithStr.

End FalsePositiveAnalysisLambda.

(** ** Specification-side definitions on doubles *)

Module Spec.

(** The orders of the doubles, as propositions. *)
Definition Lt (x y : float) : Prop := ltb x y = true.
Definition Le (x y : float) : Prop := leb x y = true.

(** The arithmetic mean as doubles give it: the scores added one after the
    other, the total divided by their number. *)
Definition arithmetic_mean (xs : list float) : float :=
  fold_left add xs 0 / of_uint63 (Uint63.of_Z (Z.of_nat (List.length xs))).

Definition score_of {A} (score : A -> float) (result : option A) : list float :=
  match result with Some a => [score a] | None => [] end.

(** The scores of exactly the analyzers that produced a result. *)
Definition present_scores
    (environment_analysis : option EnvironmentContext.t)
    (ml_classification : option FalsePositiveClassification.t)
    (pattern_analysis : option PatternAnalysis.t)
    (business_context : option BusinessContext.t)
    (temporal_analysis : option TemporalAnalysis.t) : list float :=
  (score_of FalsePositiveAnalysisLambda.calculate_environment_score environment_analysis
   ++ score_of FalsePositiveClassification.confidence ml_classification
   ++ score_of PatternAnalysis.pattern_confidence pattern_analysis
   ++ score_of FalsePositiveAnalysisLambda.calculate_business_score business_context
   ++ score_of FalsePositiveAnalysisLambda.calculate_temporal_score temporal_analysis)%list.

(** The other analyses of a response, as the combiner received them. *)
Definition optional_scores (r : Response.t) : list float :=
  (score_of FalsePositiveClassification.confidence (Response.ml_classification r)
   ++ score_of PatternAnalysis.pattern_confidence (Response.pattern_analysis r)
   ++ score_of FalsePositiveAnalysisLambda.calculate_business_score
        (Response.business_context r)
   ++ score_of FalsePositiveAnalysisLambda.calculate_temporal_score
        (Response.temporal_analysis r))%list.

(** [x] clamped to [0,1]; a value that is not a number stays as it is. *)
Definition clamp (x : float) : float :=
  if ltb x 0 then 0 else if ltb 1 x then 1 else x.

(** The fixed-weight linear combination of the five features, each product
    and each addition rounded. *)
Definition linear_combination (env hist biz temp sev : float) : float :=
  0 + env * 0.30 + hist * 0.25 + biz * 0.20 + temp * 0.15 + sev * 0.10.

Definition false_positive_rate (history : list HistoricalFinding.t) : float :=
  match history with
  | [] => 0.5
  | _ => of_nat (suppressed_count history) / of_nat (List.length history)
  end.

Definition pattern_confidence (history : list HistoricalFinding.t) : float :=
  let count := List.length history in
  if (10 <? count)%nat then false_positive_rate history
  else if (5 <? count)%nat then false_positive_rate history * 0.8
  else 0.5.

End Spec.

End Binary64.

(* ================================================================== *)
(** * Numbers *)
(* ================================================================== *)

Lemma gt_true_iff (x y : Q) : Py.gt x y = true <-> y < x.
Proof.
  unfold Py.gt. rewrite negb_true_iff.
  split; intro H.
  - apply Qnot_le_lt. intro L. apply Qle_bool_iff in L. congruence.
  - destruct (Qle_bool x y) eqn:E; [|reflexivity].
    apply Qle_bool_iff in E. lra.
Qed.

Lemma gt_false_iff (x y : Q) : Py.gt x y = false <-> x <= y.
Proof.
  unfold Py.gt. rewrite negb_false_iff. apply Qle_bool_iff.
Qed.

Lemma gt_cases (x y : Q) :
  (Py.gt x y = true /\ y < x) \/ (Py.gt x y = false /\ x <= y).
Proof.
  destruct (Py.gt x y) eqn:E.
  - left. split; [reflexivity | now apply gt_true_iff].
  - right. split; [reflexivity | now apply gt_false_iff].
Qed.

Lemma max_spec (a b : Q) : a <= Py.max a b /\ b <= Py.max a b /\
  (Py.max a b == a \/ Py.max a b == b).
Proof.
  unfold Py.max. destruct (gt_cases b a) as [[-> H] | [-> H]].
  - repeat split; lra.
  - repeat split; lra.
Qed.

Lemma min_spec (a b : Q) : Py.min a b <= a /\ Py.min a b <= b /\
  (Py.min a b == a \/ Py.min a b == b).
Proof.
  unfold Py.min, Py.lt. destruct (gt_cases a b) as [[-> H] | [-> H]].
  - repeat split; lra.
  - repeat split; lra.
Qed.

(** Python's clamp idiom is the clamp. *)
Lemma min_max_clamp (x : Q) : Py.min (Py.max x 0.0) 1.0 == Spec.clamp x.
Proof.
  unfold Spec.clamp, Py.min, Py.max, Py.lt.
  destruct (Qlt_le_dec x 0) as [L0 | L0].
  - destruct (gt_cases 0.0 x) as [[-> H] | [-> H]]; [|lra].
    destruct (gt_cases 0.0 1.0) as [[-> H'] | [-> H']]; lra.
  - destruct (gt_cases 0.0 x) as [[-> H] | [-> H]].
    + assert (x == 0) by lra.
      destruct (Qlt_le_dec 1 x); [lra|].
      destruct (gt_cases 0.0 1.0) as [[-> H'] | [-> H']]; lra.
    + destruct (Qlt_le_dec 1 x).
      * destruct (gt_cases x 1.0) as [[-> H'] | [-> H']]; lra.
      * destruct (gt_cases x 1.0) as [[-> H'] | [-> H']]; lra.
Qed.

Lemma clamp_unit (x : Q) : Spec.unit_interval (Spec.clamp x).
Proof.
  unfold Spec.unit_interval, Spec.clamp.
  destruct (Qlt_le_dec x 0); [lra|]. destruct (Qlt_le_dec 1 x); lra.
Qed.

Lemma clamp_id (x : Q) : Spec.unit_interval x -> Spec.clamp x == x.
Proof.
  unfold Spec.unit_interval, Spec.clamp. intros [H0 H1].
  destruct (Qlt_le_dec x 0); [lra|]. destruct (Qlt_le_dec 1 x); lra.
Qed.

Lemma fold_left_Qplus (xs : list Q) (a : Q) :
  fold_left Qplus xs a == a + fold_right Qplus 0 xs.
Proof.
  revert a. induction xs as [|x xs IH]; intro a; simpl.
  - lra.
  - rewrite IH. lra.
Qed.

Lemma sum_fold_right (xs : list Q) : Py.sum xs == fold_right Qplus 0 xs.
Proof. unfold Py.sum. rewrite fold_left_Qplus. lra. Qed.

Lemma len_pos {A} (x : A) (xs : list A) : 0 < Py.len (x :: xs).
Proof.
  unfold Py.len. change 0 with (inject_Z 0). rewrite <- Zlt_Qlt.
  simpl List.length. lia.
Qed.

Lemma mean_is_sum_over_len (xs : list Q) :
  xs <> [] -> Py.sum xs / Py.len xs == Spec.arithmetic_mean xs.
Proof.
  intros Hne. unfold Spec.arithmetic_mean, Py.len.
  rewrite sum_fold_right. reflexivity.
Qed.

(** The mean of scores of [0,1] is a score of [0,1]. *)
Lemma sum_bounds (xs : list Q) :
  Forall Spec.unit_interval xs ->
  0 <= fold_right Qplus 0 xs <= Py.len xs.
Proof.
  induction 1 as [|x xs [Hx0 Hx1] _ IH]; unfold Py.len in *; simpl fold_right.
  - simpl. change (inject_Z 0) with 0. lra.
  - change (List.length (x :: xs)) with (S (List.length xs)).
    rewrite Nat2Z.inj_succ, <- Z.add_1_r, inject_Z_plus.
    change (inject_Z 1) with 1. lra.
Qed.

Lemma mean_unit (xs : list Q) :
  xs <> [] -> Forall Spec.unit_interval xs ->
  Spec.unit_interval (Spec.arithmetic_mean xs).
Proof.
  intros Hne Hall. destruct xs as [|x xs]; [congruence|].
  pose proof (sum_bounds _ Hall) as [Hlo Hhi].
  pose proof (len_pos x xs) as Hlen.
  unfold Spec.unit_interval, Spec.arithmetic_mean.
  fold (Py.len (x :: xs)).
  set (s := fold_right Qplus 0 (x :: xs)) in *.
  set (n := Py.len (x :: xs)) in *.
  split.
  - apply Qle_shift_div_l; lra.
  - apply Qle_shift_div_r; lra.
Qed.

(* ================================================================== *)
(** * The combiner *)
(* ================================================================== *)

Import FalsePositiveAnalysisLambda.

Section Combiner.

Variables (environment_analysis : option EnvironmentContext.t)
          (ml_classification : option FalsePositiveClassification.t)
          (pattern_analysis : option PatternAnalysis.t)
          (business_context : option BusinessContext.t)
          (temporal_analysis : option TemporalAnalysis.t).

Let result := combine_analysis_results environment_analysis ml_classification
                pattern_analysis business_context temporal_analysis.
Let scores := Spec.present_scores environment_analysis ml_classification
                pattern_analysis business_context temporal_analysis.

(** The list the combiner accumulates is the list of the present scores. *)
Lemma combine_confidence :
  Classification.confidence result =
  match scores with
  | [] => 0.5
  | _ => Py.sum scores / Py.len scores
  end.
Proof.
  subst result scores.
  destruct environment_analysis, ml_classification, pattern_analysis,
    business_context, temporal_analysis; reflexivity.
Qed.

Lemma combine_is_false_positive :
  Classification.is_false_positive result = Py.gt (Classification.confidence result) 0.7.
Proof.
  subst result.
  destruct environment_analysis, ml_classification, pattern_analysis,
    business_context, temporal_analysis; reflexivity.
Qed.

Lemma combine_recommended_action :
  Classification.recommended_action result =
  if Py.gt (Classification.confidence result) 0.9 then "SUPPRESS"
  else if Py.gt (Classification.confidence result) 0.7 then "DOWNGRADE"
  else "REVIEW".
Proof.
  subst result.
  destruct environment_analysis, ml_classification, pattern_analysis,
    business_context, temporal_analysis; reflexivity.
Qed.

Lemma combine_mean :
  scores <> [] -> Classification.confidence result == Spec.arithmetic_mean scores.
Proof.
  intro Hne. rewrite combine_confidence.
  destruct scores as [|s rest] eqn:E; [congruence|].
  apply mean_is_sum_over_len. discriminate.
Qed.

Lemma combine_suppress :
  0.9 < Classification.confidence result ->
  Classification.recommended_action result = "SUPPRESS".
Proof.
  intro H. rewrite combine_recommended_action.
  apply gt_true_iff in H. now rewrite H.
Qed.

Lemma combine_downgrade :
  0.7 < Classification.confidence result -> Classification.confidence result <= 0.9 ->
  Classification.recommended_action result = "DOWNGRADE".
Proof.
  intros H1 H2. rewrite combine_recommended_action.
  apply gt_true_iff in H1. apply gt_false_iff in H2. now rewrite H2, H1.
Qed.

Lemma combine_review :
  Classification.confidence result <= 0.7 ->
  Classification.recommended_action result = "REVIEW".
Proof.
  intro H. rewrite combine_recommended_action.
  assert (H9 : Classification.confidence result <= 0.9) by lra.
  apply gt_false_iff in H, H9. now rewrite H9, H.
Qed.

(** The action read through its rank. *)
Lemma combine_aggressiveness :
  Spec.aggressiveness (Classification.recommended_action result) =
  (if Py.gt (Classification.confidence result) 0.9 then 2
   else if Py.gt (Classification.confidence result) 0.7 then 1 else 0)%nat.
Proof.
  rewrite combine_recommended_action.
  destruct (Py.gt (Classification.confidence result) 0.9);
    destruct (Py.gt (Classification.confidence result) 0.7); reflexivity.
Qed.

End Combiner.

(** The action never gets less aggressive when the confidence grows. *)
Lemma combine_monotone e m p b t e' m' p' b' t' :
  Classification.confidence (combine_analysis_results e m p b t)
    <= Classification.confidence (combine_analysis_results e' m' p' b' t') ->
  (Spec.aggressiveness
     (Classification.recommended_action (combine_analysis_results e m p b t))
   <= Spec.aggressiveness
        (Classification.recommended_action (combine_analysis_results e' m' p' b' t')))%nat.
Proof.
  intro H. rewrite !combine_aggressiveness.
  set (c := Classification.confidence (combine_analysis_results e m p b t)) in *.
  set (c' := Classification.confidence (combine_analysis_results e' m' p' b' t')) in *.
  destruct (Py.gt c 0.9) eqn:A, (Py.gt c 0.7) eqn:B,
           (Py.gt c' 0.9) eqn:A', (Py.gt c' 0.7) eqn:B'; try lia;
    repeat match goal with
           | E : Py.gt _ _ = true |- _ => apply gt_true_iff in E
           | E : Py.gt _ _ = false |- _ => apply gt_false_iff in E
           end; lra.
Qed.

(** ** The request handler *)

Section Requests.

Variable py_str : Finding.t -> string.
Variable clock : Clock.t.

(** [analyze_finding] returns for every finding that has its [Id]. *)
Lemma analyze_finding_returns (finding : Finding.t) (options : Options.t) (i : string) :
  Finding.Id finding = Some i ->
  exists r, analyze_finding py_str clock finding options = Returned r.
Proof.
  intro H. unfold analyze_finding. rewrite H. eexists. reflexivity.
Qed.

Lemma analyze_finding_raises (finding : Finding.t) (options : Options.t) :
  Finding.Id finding = None ->
  analyze_finding py_str clock finding options = Raised (KeyError "Id").
Proof.
  intro H. unfold analyze_finding. now rewrite H.
Qed.

(** What a returned response holds. *)
Lemma analyze_finding_fields (finding : Finding.t) (options : Options.t) (r : Response.t) :
  analyze_finding py_str clock finding options = Returned r ->
  Response.environment_analysis r
    = EnvironmentAnalyzer.analyze_environment_context finding
  /\ Response.ml_classification r
     = (if Options.get (Options.include_ml_classification options)
        then MLClassifier.classify_finding py_str finding else None)
  /\ Response.pattern_analysis r
     = (if Options.get (Options.include_pattern_analysis options)
        then Some (PatternRecognitionEngine.analyze_historical_patterns finding)
        else None)
  /\ Response.business_context r
     = (if Options.get (Options.include_business_context options)
        then Some (BusinessContextAnalyzer.analyze_business_context finding)
        else None)
  /\ Response.temporal_analysis r
     = (if Options.get (Options.include_temporal_analysis options)
        then Some (TemporalAnalyzer.analyze_temporal_context finding)
        else None)
  /\ ProcessingMetadata.models_used (Response.processing_metadata r)
     = get_models_used options
  /\ Response.classification r
     = combine_analysis_results (Some (Response.environment_analysis r))
         (Response.ml_classification r) (Response.pattern_analysis r)
         (Response.business_context r) (Response.temporal_analysis r).
Proof.
  unfold analyze_finding. destruct (Finding.Id finding); [|discriminate].
  intro H. injection H as <-. cbn [Response.environment_analysis
    Response.ml_classification Response.pattern_analysis Response.business_context
    Response.temporal_analysis Response.processing_metadata Response.classification
    ProcessingMetadata.models_used].
  repeat split; reflexivity.
Qed.

(** The confidence of a response is the mean of the environment score and
    of the scores of the optional analyses the response carries. *)
Lemma analyze_finding_mean (finding : Finding.t) (options : Options.t) (r : Response.t) :
  analyze_finding py_str clock finding options = Returned r ->
  Classification.confidence (Response.classification r)
  == Spec.arithmetic_mean
       (calculate_environment_score (Response.environment_analysis r)
        :: Spec.optional_scores r).
Proof.
  intro H. apply analyze_finding_fields in H.
  destruct H as (_ & _ & _ & _ & _ & _ & ->).
  apply combine_mean. discriminate.
Qed.

End Requests.

(* ================================================================== *)
(** * Strings *)
(* ================================================================== *)

Lemma prefix_nil (t : string) : String.prefix "" t = true.
Proof. destruct t; reflexivity. Qed.

Lemma prefix_of_nil (p : string) : String.prefix p "" = true -> p = "".
Proof. destruct p; [reflexivity | discriminate]. Qed.

Lemma prefix_app (p a b : string) :
  String.prefix p a = true -> String.prefix p (a ++ b) = true.
Proof.
  revert a. induction p as [|c p IH]; intros a H; [apply prefix_nil|].
  destruct a as [|d a]; simpl in *; [discriminate|].
  destruct (ascii_dec c d); [auto | discriminate].
Qed.

Lemma contains_nil (t : string) : Py.contains t "" = true.
Proof. destruct t; simpl; now rewrite ?prefix_nil. Qed.

Lemma contains_cons (c : ascii) (t p : string) :
  Py.contains (String c t) p = String.prefix p (String c t) || Py.contains t p.
Proof. reflexivity. Qed.

Lemma contains_app_l (t u p : string) :
  Py.contains t p = true -> Py.contains (t ++ u) p = true.
Proof.
  induction t as [|c t IH]; intro H.
  - simpl in H. rewrite orb_false_r in H.
    apply prefix_of_nil in H as ->. apply contains_nil.
  - rewrite contains_cons in H. apply orb_true_iff in H as [H | H].
    + apply (prefix_app _ _ u) in H.
      change (String c t ++ u) with (String c (t ++ u)) in *.
      rewrite contains_cons, H. reflexivity.
    + change (String c t ++ u) with (String c (t ++ u)).
      rewrite contains_cons, (IH H). apply orb_true_r.
Qed.

Lemma contains_app_r (t u p : string) :
  Py.contains u p = true -> Py.contains (t ++ u) p = true.
Proof.
  intro H. induction t as [|c t IH]; [exact H|].
  change (String c t ++ u) with (String c (t ++ u)).
  rewrite contains_cons, IH. apply orb_true_r.
Qed.

Lemma contains_join (sep : string) (parts : list string) (v p : string) :
  In v parts -> Py.contains v p = true -> Py.contains (Py.join sep parts) p = true.
Proof.
  unfold Py.join. intros Hin Hv.
  induction parts as [|x xs IH]; [contradiction|].
  destruct Hin as [-> | Hin].
  - destruct xs; simpl; [exact Hv | now apply contains_app_l].
  - specialize (IH Hin). destruct xs as [|y ys]; [contradiction|].
    change (String.concat sep (x :: y :: ys))
      with (x ++ sep ++ String.concat sep (y :: ys)).
    now apply contains_app_r, contains_app_r.
Qed.

Lemma lower_app (a b : string) : Py.lower (a ++ b) = Py.lower a ++ Py.lower b.
Proof.
  induction a as [|c a IH]; simpl; [reflexivity | now rewrite IH].
Qed.

Lemma prefix_lower (p t : string) :
  String.prefix p t = true -> String.prefix (Py.lower p) (Py.lower t) = true.
Proof.
  revert t. induction p as [|c p IH]; intros t H; [apply prefix_nil|].
  destruct t as [|d t]; simpl in *; [discriminate|].
  destruct (ascii_dec c d) as [->|]; [|discriminate].
  destruct (ascii_dec (Py.lower_char d) (Py.lower_char d)); [auto | congruence].
Qed.

Lemma contains_lower (t p : string) :
  Py.contains t p = true -> Py.contains (Py.lower t) (Py.lower p) = true.
Proof.
  induction t as [|c t IH]; intro H.
  - simpl in H. rewrite orb_false_r in H.
    apply prefix_of_nil in H as ->. apply contains_nil.
  - rewrite contains_cons in H.
    change (Py.lower (String c t)) with (String (Py.lower_char c) (Py.lower t)).
    rewrite contains_cons.
    apply orb_true_iff in H as [H | H].
    + apply prefix_lower in H.
      change (Py.lower (String c t)) with (String (Py.lower_char c) (Py.lower t)) in H.
      now rewrite H.
    + rewrite (IH H). apply orb_true_r.
Qed.

Lemma any_in_iff (text : string) (keywords : list string) :
  Py.any_in text keywords = true <-> Spec.has_keyword text keywords.
Proof.
  unfold Py.any_in, Spec.has_keyword. apply existsb_exists.
Qed.

Lemma any_in_false_iff (text : string) (keywords : list string) :
  Py.any_in text keywords = false <-> ~ Spec.has_keyword text keywords.
Proof.
  rewrite <- any_in_iff. destruct (Py.any_in text keywords); split; congruence.
Qed.

(* ================================================================== *)
(** * The Environment Analyzer *)
(* ================================================================== *)

Import EnvironmentAnalyzer.

Lemma detect_loop_unfold (text : string) :
  detect_loop text environment_patterns =
  if Py.any_in text Spec.test_like then "test"
  else if Py.any_in text Spec.production_like then "production"
  else if Py.any_in text Spec.development_like then "development"
  else "unknown".
Proof. reflexivity. Qed.

(** The loop of [detect_environment] takes the first keyword set that has a
    keyword in the text. *)
Lemma detect_loop_tier (text : string) :
  Spec.tier_of_text text (detect_loop text environment_patterns).
Proof.
  rewrite detect_loop_unfold.
  destruct (Py.any_in text Spec.test_like) eqn:T.
  { apply Spec.tier_test. now apply any_in_iff. }
  apply any_in_false_iff in T.
  destruct (Py.any_in text Spec.production_like) eqn:P.
  { apply Spec.tier_production; [assumption | now apply any_in_iff]. }
  apply any_in_false_iff in P.
  destruct (Py.any_in text Spec.development_like) eqn:D.
  { apply Spec.tier_development; [assumption .. | now apply any_in_iff]. }
  apply any_in_false_iff in D.
  now apply Spec.tier_unknown.
Qed.

(** The text decides the tier: the relation of the specification is a
    function. *)
Lemma tier_of_text_unique (text t1 t2 : string) :
  Spec.tier_of_text text t1 -> Spec.tier_of_text text t2 -> t1 = t2.
Proof.
  intros H1 H2. destruct H1; destruct H2; try reflexivity; contradiction.
Qed.

Lemma tier_of_text_values (text t : string) :
  Spec.tier_of_text text t ->
  t = "test" \/ t = "production" \/ t = "development" \/ t = "unknown".
Proof. destruct 1; auto. Qed.

Lemma assess_environment_risk_table (environment : string) :
  assess_environment_risk environment = Spec.risk_of_tier environment.
Proof.
  change (assess_environment_risk environment) with
    (if String.eqb "production" environment then "HIGH"
     else if String.eqb "staging" environment then "MEDIUM"
     else if String.eqb "test" environment then "LOW"
     else if String.eqb "development" environment then "LOW"
     else if String.eqb "unknown" environment then "MEDIUM"
     else "MEDIUM").
  unfold Spec.risk_of_tier.
  rewrite !(String.eqb_sym _ environment).
  destruct (String.eqb_spec environment "production") as [->|_]; [reflexivity|].
  destruct (String.eqb_spec environment "staging") as [->|_]; [reflexivity|].
  destruct (String.eqb_spec environment "test") as [->|_]; [reflexivity|].
  destruct (String.eqb_spec environment "development") as [->|_]; [reflexivity|].
  destruct (String.eqb_spec environment "unknown") as [->|_]; reflexivity.
Qed.

(** The context of a finding, by the shape of its resource list. *)
Lemma environment_of_first_resource (finding : Finding.t) (r : Resource.t)
    (rest : list Resource.t) :
  Finding.get_Resources finding = r :: rest ->
  EnvironmentContext.environment (analyze_environment_context finding)
  = detect_loop (Spec.resource_text r) environment_patterns.
Proof.
  intro H. unfold analyze_environment_context. rewrite H. reflexivity.
Qed.

Lemma environment_without_resources (finding : Finding.t) :
  Finding.get_Resources finding = [] ->
  analyze_environment_context finding = EnvironmentContext.mk "unknown" "MEDIUM" false false.
Proof.
  intro H. unfold analyze_environment_context. now rewrite H.
Qed.

Lemma environment_values (finding : Finding.t) :
  let e := EnvironmentContext.environment (analyze_environment_context finding) in
  e = "test" \/ e = "production" \/ e = "development" \/ e = "unknown".
Proof.
  cbv zeta. destruct (Finding.get_Resources finding) as [|r rest] eqn:E.
  - rewrite (environment_without_resources _ E). simpl. auto.
  - rewrite (environment_of_first_resource _ _ _ E).
    eapply tier_of_text_values, detect_loop_tier.
Qed.

Lemma risk_level_of_environment (finding : Finding.t) :
  EnvironmentContext.risk_level (analyze_environment_context finding)
  = assess_environment_risk
      (EnvironmentContext.environment (analyze_environment_context finding)).
Proof.
  unfold analyze_environment_context.
  destruct (Finding.get_Resources finding); reflexivity.
Qed.

(* ================================================================== *)
(** * The claims *)
(* ================================================================== *)

(** The combiner reaches the three confidences the specification names. *)
Example combine_reaches_0_95 :
  let c := combine_analysis_results (Some test_context) (Some (classifier_result 1.0))
             None None None in
  Classification.confidence c == 0.95 /\ Classification.recommended_action c = "SUPPRESS".
Proof. split; reflexivity. Qed.

Example combine_reaches_0_8 :
  let c := combine_analysis_results (Some test_context) (Some (classifier_result 0.7))
             None None None in
  Classification.confidence c == 0.8 /\ Classification.recommended_action c = "DOWNGRADE".
Proof. split; reflexivity. Qed.

Example combine_reaches_0_5 :
  let c := combine_analysis_results None None None None None in
  Classification.confidence c == 0.5 /\ Classification.recommended_action c = "REVIEW".
Proof. split; reflexivity. Qed.


(** C8. The tier of a finding is decided by the lower-cased text of its first
    resource (identifier, then the tag values, separated by spaces): the
    first of the test-like, production-like and development-like keyword
    sets with a keyword in the text wins, and the tier is [unknown] when none
    has one or when the finding has no resource; the analyzer is a total
    function; the risk level follows the fixed table. *)
Theorem C8_environment_tier_and_risk :
  forall finding : Finding.t,
    let context := analyze_environment_context finding in
    (forall r rest, Finding.get_Resources finding = r :: rest ->
       Spec.tier_of_text (Spec.resource_text r) (EnvironmentContext.environment context))
    /\ (forall r arn tags, r = Resource.mk (Some arn) (Some tags) ->
          Spec.resource_text r = Py.lower (arn ++ " " ++ Py.join " " (map snd tags)))
    /\ (Finding.Resources finding = Some [] ->
          EnvironmentContext.environment context = "unknown")
    /\ (Finding.Resources finding = None ->
          EnvironmentContext.environment context = "unknown")
    /\ EnvironmentContext.risk_level context
       = Spec.risk_of_tier (EnvironmentContext.environment context)
    /\ Spec.risk_of_tier "production" = "HIGH"
    /\ Spec.risk_of_tier "staging" = "MEDIUM"
    /\ Spec.risk_of_tier "test" = "LOW"
    /\ Spec.risk_of_tier "development" = "LOW"
    /\ Spec.risk_of_tier "unknown" = "MEDIUM".
Proof.
  intros finding context. subst context.
  split.
  { intros r rest H. rewrite (environment_of_first_resource _ _ _ H).
    apply detect_loop_tier. }
  split; [intros r arn tags ->; reflexivity|].
  split.
  { intro H. unfold analyze_environment_context, Finding.get_Resources.
    now rewrite H. }
  split.
  { intro H. unfold analyze_environment_context, Finding.get_Resources.
    rewrite H. reflexivity. }
  split.
  { rewrite risk_level_of_environment. apply assess_environment_risk_table. }
  repeat split; reflexivity.
Qed.

(** ** Keywords of the first set *)

Lemma prefix_app_pattern (p q t : string) :
  String.prefix (p ++ q) t = true -> String.prefix p t = true.
Proof.
  revert t. induction p as [|c p IH]; intros t H; [apply prefix_nil|].
  destruct t as [|d t]; simpl in *; [discriminate|].
  destruct (ascii_dec c d); [auto | discriminate].
Qed.

Lemma contains_app_pattern (p q t : string) :
  Py.contains t (p ++ q) = true -> Py.contains t p = true.
Proof.
  induction t as [|c t IH]; intro H.
  - simpl in H. rewrite orb_false_r in H. apply prefix_of_nil in H.
    destruct p; [apply contains_nil | discriminate].
  - rewrite contains_cons in *. apply orb_true_iff in H as [H | H].
    + apply prefix_app_pattern in H. now rewrite H.
    + rewrite (IH H). apply orb_true_r.
Qed.

Lemma lower_join (sep : string) (parts : list string) :
  Py.lower (Py.join sep parts) = Py.join (Py.lower sep) (map Py.lower parts).
Proof.
  unfold Py.join. induction parts as [|x xs IH]; [reflexivity|].
  destruct xs as [|y ys]; [reflexivity|].
  change (String.concat sep (x :: y :: ys))
    with (x ++ sep ++ String.concat sep (y :: ys)).
  change (String.concat (Py.lower sep) (map Py.lower (x :: y :: ys)))
    with (Py.lower x ++ Py.lower sep
          ++ String.concat (Py.lower sep) (map Py.lower (y :: ys))).
  now rewrite !lower_app, IH.
Qed.

(** A keyword that the identifier or a tag value holds is in the text that
    [detect_environment] inspects. *)
Lemma mentions_text (resource_arn : string) (tags : list (string * string))
    (keyword : string) :
  Spec.mentions resource_arn tags keyword ->
  Py.contains (text_to_analyze resource_arn tags) keyword = true.
Proof.
  unfold Spec.mentions, Spec.occurs_in, text_to_analyze.
  rewrite !lower_app, lower_join.
  intros [H | (v & Hin & H)].
  - now apply contains_app_l.
  - apply contains_app_r, contains_app_r.
    eapply contains_join; [|exact H]. now apply in_map.
Qed.

Lemma test_keyword_detected (resource_arn : string) (tags : list (string * string))
    (keyword : string) :
  In keyword Spec.test_like ->
  Py.contains (text_to_analyze resource_arn tags) keyword = true ->
  detect_environment resource_arn tags = "test".
Proof.
  intros Hin H. unfold detect_environment. rewrite detect_loop_unfold.
  assert (A : Py.any_in (text_to_analyze resource_arn tags) Spec.test_like = true).
  { apply any_in_iff. now exists keyword. }
  now rewrite A.
Qed.

Lemma detect_environment_values (resource_arn : string) (tags : list (string * string)) :
  let e := detect_environment resource_arn tags in
  e = "test" \/ e = "production" \/ e = "development" \/ e = "unknown".
Proof.
  cbv zeta. unfold detect_environment.
  eapply tier_of_text_values, detect_loop_tier.
Qed.

(** C10. [detect_environment] never returns ['staging']: a resource whose
    identifier or tag values contain ['staging'], ['dev'] or ['development']
    is classified as ['test'], because the test-like set holds ['staging']
    and ['dev'] and is checked first; so no finding gets the tier
    ['staging'], and the risk MEDIUM is only ever that of the tier
    ['unknown']. *)
Theorem C10_staging_never_detected :
  (forall resource_arn tags, detect_environment resource_arn tags <> "staging")
  /\ (forall resource_arn tags keyword,
        In keyword ["staging"; "dev"; "development"] ->
        Spec.mentions resource_arn tags keyword ->
        detect_environment resource_arn tags = "test")
  /\ (forall text keyword,
        In keyword ["staging"; "dev"; "development"] ->
        Py.contains text keyword = true -> Spec.occurs_in keyword text)
  /\ (forall finding r rest keyword,
        Finding.get_Resources finding = r :: rest ->
        In keyword ["staging"; "dev"; "development"] ->
        Spec.mentions (Resource.get_Id r) (Resource.get_Tags r) keyword ->
        EnvironmentContext.environment (analyze_environment_context finding) = "test")
  /\ (forall finding,
        EnvironmentContext.environment (analyze_environment_context finding) <> "staging")
  /\ (forall finding,
        EnvironmentContext.risk_level (analyze_environment_context finding) = "MEDIUM" ->
        EnvironmentContext.environment (analyze_environment_context finding) = "unknown").
Proof.
  assert (K : forall resource_arn tags keyword,
             In keyword ["staging"; "dev"; "development"] ->
             Spec.mentions resource_arn tags keyword ->
             detect_environment resource_arn tags = "test").
  { intros resource_arn tags keyword Hin Hm. apply mentions_text in Hm.
    destruct Hin as [<- | [<- | [<- | []]]].
    - apply (test_keyword_detected _ _ "staging"); [simpl; auto | exact Hm].
    - apply (test_keyword_detected _ _ "dev"); [simpl; auto | exact Hm].
    - apply (test_keyword_detected _ _ "dev"); [simpl; auto|].
      now apply (contains_app_pattern "dev" "elopment"). }
  split.
  { intros resource_arn tags.
    destruct (detect_environment_values resource_arn tags) as [E | [E | [E | E]]];
      rewrite E; discriminate. }
  split; [exact K|].
  split.
  { intros text keyword Hin H. unfold Spec.occurs_in.
    apply contains_lower in H.
    destruct Hin as [<- | [<- | [<- | []]]]; exact H. }
  split.
  { intros finding r rest keyword Hres Hin Hm.
    unfold analyze_environment_context. rewrite Hres. simpl.
    now apply (K _ _ keyword). }
  split.
  { intro finding.
    destruct (environment_values finding) as [E | [E | [E | E]]];
      rewrite E; discriminate. }
  intro finding. rewrite risk_level_of_environment.
  destruct (environment_values finding) as [E | [E | [E | E]]];
    rewrite E; (discriminate || reflexivity).
Qed.

(** ** The per-analyzer scores *)

Lemma calculate_environment_score_values (e : EnvironmentContext.t) :
  calculate_environment_score e = 0.9 \/ calculate_environment_score e = 0.1
  \/ calculate_environment_score e = 0.5.
Proof.
  unfold calculate_environment_score.
  destruct (Py.mem _ _); [auto|]. destruct (String.eqb _ _); auto.
Qed.

Lemma calculate_business_score_values (b : BusinessContext.t) :
  calculate_business_score b = 0.8 \/ calculate_business_score b = 0.2
  \/ calculate_business_score b = 0.5.
Proof.
  unfold calculate_business_score.
  destruct (BusinessContext.has_business_exception b); [auto|].
  destruct (BusinessContext.is_critical_resource b); auto.
Qed.

Lemma calculate_temporal_score_values (t : TemporalAnalysis.t) :
  calculate_temporal_score t = 0.8 \/ calculate_temporal_score t = 0.7
  \/ calculate_temporal_score t = 0.5.
Proof.
  unfold calculate_temporal_score.
  destruct (TemporalAnalysis.is_temporary t); [auto|].
  destruct (TemporalAnalysis.in_maintenance_window t); auto.
Qed.

Lemma calculate_environment_score_unit (e : EnvironmentContext.t) :
  Spec.unit_interval (calculate_environment_score e).
Proof.
  unfold Spec.unit_interval.
  destruct (calculate_environment_score_values e) as [-> | [-> | ->]]; lra.
Qed.

Lemma calculate_business_score_unit (b : BusinessContext.t) :
  Spec.unit_interval (calculate_business_score b).
Proof.
  unfold Spec.unit_interval.
  destruct (calculate_business_score_values b) as [-> | [-> | ->]]; lra.
Qed.

Lemma calculate_temporal_score_unit (t : TemporalAnalysis.t) :
  Spec.unit_interval (calculate_temporal_score t).
Proof.
  unfold Spec.unit_interval.
  destruct (calculate_temporal_score_values t) as [-> | [-> | ->]]; lra.
Qed.

Lemma unit_interval_eq (x y : Q) : x == y -> Spec.unit_interval x -> Spec.unit_interval y.
Proof. unfold Spec.unit_interval. intros E H. lra. Qed.

(** ** The classifier *)

Lemma clamp_eq (x y : Q) : x == y -> Spec.clamp x == Spec.clamp y.
Proof.
  intro E. unfold Spec.clamp.
  destruct (Qlt_le_dec x 0), (Qlt_le_dec y 0); try lra;
    destruct (Qlt_le_dec 1 x), (Qlt_le_dec 1 y); lra.
Qed.

(** Whatever the features are, the classifier's probability is in [0,1]. *)
Lemma simple_classification_unit (features : list Q) :
  Spec.unit_interval (MLClassifier.simple_classification features).
Proof.
  unfold MLClassifier.simple_classification.
  eapply unit_interval_eq; [symmetry; apply min_max_clamp | apply clamp_unit].
Qed.

Lemma weighted_sum_five (f1 f2 f3 f4 f5 : Q) :
  Py.sum (map (fun fw => fst fw * snd fw)
            (Py.zip [f1; f2; f3; f4; f5] MLClassifier.weights))
  == Spec.linear_combination f1 f2 f3 f4 f5.
Proof.
  unfold Spec.linear_combination, Py.sum, Py.zip, MLClassifier.weights.
  cbn [combine map fold_left fst snd]. lra.
Qed.

Lemma simple_classification_five (f1 f2 f3 f4 f5 : Q) :
  MLClassifier.simple_classification [f1; f2; f3; f4; f5]
  == Spec.clamp (Spec.linear_combination f1 f2 f3 f4 f5).
Proof.
  unfold MLClassifier.simple_classification.
  rewrite min_max_clamp. apply clamp_eq, weighted_sum_five.
Qed.

(** A vector of five features is classified: no index is out of range. *)
Lemma classify_features_five (finding : Finding.t) (f1 f2 f3 f4 f5 : Q) :
  exists reasoning,
    MLClassifier.classify_features finding [f1; f2; f3; f4; f5]
    = Some (FalsePositiveClassification.mk
              (Py.gt (MLClassifier.simple_classification [f1; f2; f3; f4; f5]) 0.7)
              (MLClassifier.simple_classification [f1; f2; f3; f4; f5])
              reasoning).
Proof.
  unfold MLClassifier.classify_features, MLClassifier.generate_reasoning.
  cbn [nth_error]. eexists. reflexivity.
Qed.

Lemma classify_finding_result (py_str : Finding.t -> string) (finding : Finding.t) :
  exists reasoning,
    let features := FalsePositiveFeatureExtractor.extract_features py_str finding in
    MLClassifier.classify_finding py_str finding
    = Some (FalsePositiveClassification.mk
              (Py.gt (MLClassifier.simple_classification features) 0.7)
              (MLClassifier.simple_classification features)
              reasoning).
Proof.
  unfold MLClassifier.classify_finding, FalsePositiveFeatureExtractor.extract_features.
  apply classify_features_five.
Qed.



(** ** The pattern engine *)

Import PatternRecognitionEngine.

Lemma suppressed_count_filter (history : list HistoricalFinding.t) :
  List.length (filter is_suppressed history) = Spec.suppressed_count history.
Proof.
  induction history as [|h rest IH]; [reflexivity|].
  simpl. unfold is_suppressed at 1.
  destruct (Spec.suppressed_dec h) as [S | N]; unfold Spec.suppressed in *.
  - rewrite S. simpl. now rewrite IH.
  - destruct (HistoricalFinding.WorkflowState h) as [s|]; [|exact IH].
    destruct (String.eqb_spec s "SUPPRESSED") as [-> | _]; [congruence | exact IH].
Qed.

Lemma suppressed_count_le (history : list HistoricalFinding.t) :
  (Spec.suppressed_count history <= List.length history)%nat.
Proof.
  induction history as [|h rest IH]; simpl; [lia|].
  destruct (Spec.suppressed_dec h); lia.
Qed.

Lemma analyze_outcomes_rate (history : list HistoricalFinding.t) :
  get_false_positive_rate (analyze_outcomes history) = Spec.false_positive_rate history.
Proof.
  destruct history as [|h rest]; [reflexivity|].
  unfold analyze_outcomes, get_false_positive_rate, Spec.false_positive_rate.
  cbn [false_positive_rate]. rewrite suppressed_count_filter. reflexivity.
Qed.

Lemma analyze_outcomes_total (history : list HistoricalFinding.t) :
  get_total_findings (analyze_outcomes history) = List.length history.
Proof. destruct history; reflexivity. Qed.

Lemma calculate_pattern_probability_spec (history : list HistoricalFinding.t) :
  calculate_pattern_probability (analyze_outcomes history)
  == Spec.pattern_confidence history.
Proof.
  unfold calculate_pattern_probability, Spec.pattern_confidence.
  rewrite analyze_outcomes_rate, analyze_outcomes_total.
  destruct (10 <? List.length history)%nat; [reflexivity|].
  destruct (5 <? List.length history)%nat; [ring | reflexivity].
Qed.

Lemma of_nat_nonneg (n : nat) : 0 <= Py.of_nat n.
Proof.
  unfold Py.of_nat. change 0 with (inject_Z 0). rewrite <- Zle_Qle. lia.
Qed.

Lemma of_nat_le (m n : nat) : (m <= n)%nat -> Py.of_nat m <= Py.of_nat n.
Proof. intro H. unfold Py.of_nat. rewrite <- Zle_Qle. lia. Qed.

Lemma of_nat_pos (n : nat) : (0 < n)%nat -> 0 < Py.of_nat n.
Proof.
  intro H. unfold Py.of_nat. change 0 with (inject_Z 0). rewrite <- Zlt_Qlt. lia.
Qed.

Lemma false_positive_rate_unit (history : list HistoricalFinding.t) :
  Spec.unit_interval (Spec.false_positive_rate history).
Proof.
  unfold Spec.unit_interval, Spec.false_positive_rate.
  destruct history as [|h rest]; [lra|].
  pose proof (suppressed_count_le (h :: rest)) as Hle.
  apply of_nat_le in Hle.
  pose proof (of_nat_nonneg (Spec.suppressed_count (h :: rest))) as Hk.
  assert (Hn : 0 < Py.of_nat (List.length (h :: rest))) by (apply of_nat_pos; simpl; lia).
  split.
  - apply Qle_shift_div_l; lra.
  - apply Qle_shift_div_r; lra.
Qed.

Lemma pattern_confidence_unit (history : list HistoricalFinding.t) :
  Spec.unit_interval (Spec.pattern_confidence history).
Proof.
  pose proof (false_positive_rate_unit history) as H.
  unfold Spec.unit_interval, Spec.pattern_confidence in *.
  destruct (10 <? List.length history)%nat; [exact H|].
  destruct (5 <? List.length history)%nat; lra.
Qed.


(** ** Every score of a response is in [0,1] *)

Lemma classify_finding_unit (py_str : Finding.t -> string) (finding : Finding.t)
    (m : FalsePositiveClassification.t) :
  MLClassifier.classify_finding py_str finding = Some m ->
  Spec.unit_interval (FalsePositiveClassification.confidence m).
Proof.
  destruct (classify_finding_result py_str finding) as (reasoning & E).
  cbv zeta in E. rewrite E. intro H. injection H as <-.
  apply simple_classification_unit.
Qed.

Lemma analyze_historical_patterns_unit (finding : Finding.t) :
  Spec.unit_interval
    (PatternAnalysis.pattern_confidence (analyze_historical_patterns finding)).
Proof.
  unfold analyze_historical_patterns. cbn [PatternAnalysis.pattern_confidence].
  eapply unit_interval_eq;
    [symmetry; apply calculate_pattern_probability_spec | apply pattern_confidence_unit].
Qed.

Section Responses.

Variable py_str : Finding.t -> string.
Variable clock : Clock.t.
Variables (finding : Finding.t) (options : Options.t) (r : Response.t).
Hypothesis Hr : analyze_finding py_str clock finding options = Returned r.

Lemma response_ml_unit (m : FalsePositiveClassification.t) :
  Response.ml_classification r = Some m ->
  Spec.unit_interval (FalsePositiveClassification.confidence m).
Proof.
  destruct (analyze_finding_fields _ _ _ _ _ Hr) as (_ & E & _). rewrite E.
  destruct (Options.get _); [apply classify_finding_unit | discriminate].
Qed.

Lemma response_pattern_unit (p : PatternAnalysis.t) :
  Response.pattern_analysis r = Some p ->
  Spec.unit_interval (PatternAnalysis.pattern_confidence p).
Proof.
  destruct (analyze_finding_fields _ _ _ _ _ Hr) as (_ & _ & E & _). rewrite E.
  destruct (Options.get _); [|discriminate].
  intro H. injection H as <-. apply analyze_historical_patterns_unit.
Qed.

Lemma optional_scores_unit : Forall Spec.unit_interval (Spec.optional_scores r).
Proof.
  unfold Spec.optional_scores.
  pose proof response_ml_unit as Hm. pose proof response_pattern_unit as Hp.
  destruct (Response.ml_classification r) as [m|],
           (Response.pattern_analysis r) as [p|],
           (Response.business_context r) as [b|],
           (Response.temporal_analysis r) as [t|];
    cbn [Spec.score_of app];
    repeat (apply Forall_cons || apply Forall_nil);
    auto using calculate_business_score_unit, calculate_temporal_score_unit.
Qed.

Lemma response_confidence_unit :
  Spec.unit_interval (Classification.confidence (Response.classification r)).
Proof.
  eapply unit_interval_eq.
  - symmetry. exact (analyze_finding_mean _ _ _ _ _ Hr).
  - apply mean_unit; [discriminate|].
    apply Forall_cons;
      [apply calculate_environment_score_unit | apply optional_scores_unit].
Qed.

End Responses.

(** C2. For every finding and every combination of the options, each score
    given to the combiner (environment score, classifier confidence, pattern
    confidence, business score, temporal score) and the confidence of the
    returned classification are in [0,1]. *)
Theorem C2_scores_in_unit_interval :
  forall (py_str : Finding.t -> string) (clock : Clock.t)
         (finding : Finding.t) (options : Options.t) (i : string),
    Finding.Id finding = Some i ->
    exists r,
      analyze_finding py_str clock finding options = Returned r
      /\ Response.classification r
         = combine_analysis_results (Some (Response.environment_analysis r))
             (Response.ml_classification r) (Response.pattern_analysis r)
             (Response.business_context r) (Response.temporal_analysis r)
      /\ Spec.unit_interval (calculate_environment_score (Response.environment_analysis r))
      /\ (forall m, Response.ml_classification r = Some m ->
            Spec.unit_interval (FalsePositiveClassification.confidence m))
      /\ (forall p, Response.pattern_analysis r = Some p ->
            Spec.unit_interval (PatternAnalysis.pattern_confidence p))
      /\ (forall b, Response.business_context r = Some b ->
            Spec.unit_interval (calculate_business_score b))
      /\ (forall t, Response.temporal_analysis r = Some t ->
            Spec.unit_interval (calculate_temporal_score t))
      /\ Spec.unit_interval (Classification.confidence (Response.classification r)).
Proof.
  intros py_str clock finding options i Hid.
  destruct (analyze_finding_returns py_str clock finding options i Hid) as (r & Hr).
  exists r. split; [exact Hr|].
  split; [apply (analyze_finding_fields _ _ _ _ _ Hr)|].
  split; [apply calculate_environment_score_unit|].
  split; [apply (response_ml_unit _ _ _ _ _ Hr)|].
  split; [apply (response_pattern_unit _ _ _ _ _ Hr)|].
  split; [intros; apply calculate_business_score_unit|].
  split; [intros; apply calculate_temporal_score_unit|].
  apply (response_confidence_unit _ _ _ _ _ Hr).
Qed.

Lemma C2_scores_in_unit_interval_witness :
  Finding.Id development_finding <> None
  /\ exists r,
       analyze_finding sample_str sample_clock development_finding default_options
       = Returned r
       /\ Spec.unit_interval (Classification.confidence (Response.classification r)).
Proof.
  split; [discriminate|].
  destruct (C2_scores_in_unit_interval sample_str sample_clock development_finding
              default_options _ eq_refl) as (r & Hr & _ & _ & _ & _ & _ & _ & H).
  exists r. split; assumption.
Defined.



(** ** A request with the four options disabled *)

Lemma single_score_mean (s : Q) : Spec.arithmetic_mean [s] == s.
Proof. unfold Spec.arithmetic_mean. simpl. field. Qed.

(** The claim of C3 fails on the development finding of the test suite: with
    the four options disabled the confidence is the environment score 0.9 and
    the action is DOWNGRADE. *)
Lemma C3_counterexample :
  Options.get (Options.include_ml_classification all_disabled) = false
  /\ Options.get (Options.include_pattern_analysis all_disabled) = false
  /\ Options.get (Options.include_business_context all_disabled) = false
  /\ Options.get (Options.include_temporal_analysis all_disabled) = false
  /\ exists r,
       analyze_finding sample_str sample_clock development_finding all_disabled
       = Returned r
       /\ Classification.confidence (Response.classification r) == 0.9
       /\ Classification.recommended_action (Response.classification r) = "DOWNGRADE"
       /\ ~ (Classification.confidence (Response.classification r) == 0.5
             /\ Classification.recommended_action (Response.classification r) = "REVIEW").
Proof.
  repeat (split; [reflexivity|]).
  eexists. split; [reflexivity|].
  split; [reflexivity|]. split; [reflexivity|].
  intros [_ H]. discriminate H.
Qed.

(** C3, amended. A request with the four options disabled returns for every
    finding that has its [Id]; no optional analysis is in the response and
    the confidence is the environment score alone: 0.5 with REVIEW for the
    tier [unknown], 0.1 with REVIEW for [production], 0.9 with DOWNGRADE for
    [test] and [development].  The combiner's own default, 0.5 with REVIEW,
    is what it returns when it is given no analysis at all. *)
Theorem C3_all_options_disabled :
  forall (py_str : Finding.t -> string) (clock : Clock.t)
         (finding : Finding.t) (options : Options.t) (i : string),
    Finding.Id finding = Some i ->
    Options.get (Options.include_ml_classification options) = false ->
    Options.get (Options.include_pattern_analysis options) = false ->
    Options.get (Options.include_business_context options) = false ->
    Options.get (Options.include_temporal_analysis options) = false ->
    exists r,
      analyze_finding py_str clock finding options = Returned r
      /\ Response.ml_classification r = None
      /\ Response.pattern_analysis r = None
      /\ Response.business_context r = None
      /\ Response.temporal_analysis r = None
      /\ (let tier := EnvironmentContext.environment (Response.environment_analysis r) in
          let c := Response.classification r in
          Classification.confidence c
          == calculate_environment_score (Response.environment_analysis r)
          /\ (tier = "test" \/ tier = "production" \/ tier = "development"
              \/ tier = "unknown")
          /\ (tier = "unknown" ->
              Classification.confidence c == 0.5
              /\ Classification.recommended_action c = "REVIEW"
              /\ Classification.is_false_positive c = false)
          /\ (tier = "production" ->
              Classification.confidence c == 0.1
              /\ Classification.recommended_action c = "REVIEW"
              /\ Classification.is_false_positive c = false)
          /\ (tier = "test" \/ tier = "development" ->
              Classification.confidence c == 0.9
              /\ Classification.recommended_action c = "DOWNGRADE"
              /\ Classification.is_false_positive c = true))
      /\ (let c := combine_analysis_results None None None None None in
          Classification.confidence c == 0.5
          /\ Classification.recommended_action c = "REVIEW").
Proof.
  intros py_str clock finding options i Hid Hm Hp Hb Ht.
  destruct (analyze_finding_returns py_str clock finding options i Hid) as (r & Hr).
  exists r. split; [exact Hr|].
  destruct (analyze_finding_fields _ _ _ _ _ Hr) as (E & M & P & B & T & _ & C).
  rewrite Hm in M. rewrite Hp in P. rewrite Hb in B. rewrite Ht in T.
  repeat (split; [assumption|]).
  split; [|split; reflexivity].
  cbv zeta.
  assert (Hc : Classification.confidence (Response.classification r)
               == calculate_environment_score (Response.environment_analysis r)).
  { rewrite C, M, P, B, T. rewrite combine_mean by discriminate.
    apply single_score_mean. }
  assert (Hflag := combine_is_false_positive (Some (Response.environment_analysis r))
                     (Response.ml_classification r) (Response.pattern_analysis r)
                     (Response.business_context r) (Response.temporal_analysis r)).
  rewrite <- C in Hflag.
  split; [exact Hc|].
  split; [rewrite E; apply environment_values|].
  split; [|split].
  - intro Hu. unfold calculate_environment_score in Hc. rewrite Hu in Hc.
    change (Classification.confidence (Response.classification r) == 0.5) in Hc.
    split; [exact Hc|]. split.
    + rewrite C. apply combine_review. rewrite <- C, Hc. discriminate.
    + rewrite Hflag. apply gt_false_iff. rewrite Hc. discriminate.
  - intro Hu. unfold calculate_environment_score in Hc. rewrite Hu in Hc.
    change (Classification.confidence (Response.classification r) == 0.1) in Hc.
    split; [exact Hc|]. split.
    + rewrite C. apply combine_review. rewrite <- C, Hc. discriminate.
    + rewrite Hflag. apply gt_false_iff. rewrite Hc. discriminate.
  - intro Hu.
    assert (Hc' : Classification.confidence (Response.classification r) == 0.9).
    { unfold calculate_environment_score in Hc.
      destruct Hu as [Hu | Hu]; rewrite Hu in Hc; exact Hc. }
    split; [exact Hc'|]. split.
    + rewrite C. apply combine_downgrade; rewrite <- C, Hc'; [reflexivity | discriminate].
    + rewrite Hflag. apply gt_true_iff. rewrite Hc'. reflexivity.
Qed.

Lemma C3_all_options_disabled_witness :
  Finding.Id development_finding <> None
  /\ exists r,
       analyze_finding sample_str sample_clock development_finding all_disabled
       = Returned r
       /\ Response.ml_classification r = None
       /\ Response.pattern_analysis r = None
       /\ Response.business_context r = None
       /\ Response.temporal_analysis r = None.
Proof.
  split; [discriminate|].
  destruct (C3_all_options_disabled sample_str sample_clock development_finding
              all_disabled _ eq_refl eq_refl eq_refl eq_refl eq_refl)
    as (r & Hr & M & P & B & T & _).
  exists r. repeat split; assumption.
Defined.

(** ** The findings of the test suite *)

(** C4. On the development finding of the test suite, with the default
    options, the tier is [test] and the reasoning names the non-production
    environment, but the confidence is 0.604: it is not above 0.7 and
    [is_false_positive] is false. *)
Theorem C4_development_finding_evaluation :
  forall (py_str : Finding.t -> string) (clock : Clock.t),
    exists r,
      analyze_finding py_str clock development_finding default_options = Returned r
      /\ EnvironmentContext.environment (Response.environment_analysis r) = "test"
      /\ Py.contains (Classification.reasoning (Response.classification r))
           "non-production environment" = true
      /\ Classification.confidence (Response.classification r) == 0.604
      /\ ~ 0.7 < Classification.confidence (Response.classification r)
      /\ Classification.is_false_positive (Response.classification r) = false
      /\ Classification.recommended_action (Response.classification r) = "REVIEW".
Proof.
  intros py_str clock. eexists. split; [reflexivity|].
  split; [reflexivity|]. split; [reflexivity|].
  set (c := Classification.confidence _).
  assert (Hc : c == 0.604) by reflexivity.
  split; [exact Hc|].
  split; [rewrite Hc; intro H; discriminate H|]. split; reflexivity.
Qed.

(** C5. On the production finding of the test suite (tag
    [Environment=production], severity HIGH, and the tag
    [Project=test-project]), with the default options, the tier is [test]
    because ["test"] occurs in a tag value, and the confidence is 0.604: it
    is not below 0.5. *)
Theorem C5_production_finding_evaluation :
  forall (py_str : Finding.t -> string) (clock : Clock.t),
    Py.dict_get (default_tags "production") "Environment" "unknown" = "production"
    /\ Finding.get_Severity_Label production_finding = "HIGH"
    /\ exists r,
         analyze_finding py_str clock production_finding default_options = Returned r
         /\ EnvironmentContext.environment (Response.environment_analysis r) = "test"
         /\ Classification.confidence (Response.classification r) == 0.604
         /\ ~ Classification.confidence (Response.classification r) < 0.5
         /\ Classification.is_false_positive (Response.classification r) = false.
Proof.
  intros py_str clock. split; [reflexivity|]. split; [reflexivity|].
  eexists. split; [reflexivity|]. split; [reflexivity|].
  set (c := Classification.confidence _).
  assert (Hc : c == 0.604) by reflexivity.
  split; [exact Hc|].
  split; [rewrite Hc; intro H; discriminate H | reflexivity].
Qed.

(** ** What holds for a whole tier *)

Lemma linear_combination_unit (e h b t s : Q) :
  Spec.unit_interval e -> Spec.unit_interval h -> Spec.unit_interval b ->
  Spec.unit_interval t -> Spec.unit_interval s ->
  MLClassifier.simple_classification [e; h; b; t; s]
  == Spec.linear_combination e h b t s.
Proof.
  intros He Hh Hb Ht Hs. rewrite simple_classification_five. apply clamp_id.
  unfold Spec.unit_interval, Spec.linear_combination in *. lra.
Qed.

Section Features.

Variable py_str : Finding.t -> string.
Variable finding : Finding.t.

Lemma extract_business_exception_score_values :
  let b := FalsePositiveFeatureExtractor.extract_business_exception_score finding in
  b = 0.8 \/ b = 0.2 \/ b = 0.5.
Proof.
  cbv zeta. unfold FalsePositiveFeatureExtractor.extract_business_exception_score.
  destruct (BusinessContext.has_business_exception _); [auto|].
  destruct (BusinessContext.is_critical_resource _); auto.
Qed.

Lemma extract_severity_mismatch_score_values :
  let s := FalsePositiveFeatureExtractor.extract_severity_mismatch_score py_str finding in
  s = 0.8 \/ s = 0.3 \/ s = 0.5.
Proof.
  cbv zeta. unfold FalsePositiveFeatureExtractor.extract_severity_mismatch_score.
  destruct (_ && _); [auto|]. destruct (_ && _); auto.
Qed.

(** The classifier's confidence on a finding, from the environment and the
    business feature: the historical and temporal features are 0.5 and the
    severity feature is at most 0.8. *)
Lemma classify_finding_bound (m : FalsePositiveClassification.t) :
  MLClassifier.classify_finding py_str finding = Some m ->
  FalsePositiveClassification.confidence m
  <= 0.3 * FalsePositiveFeatureExtractor.extract_environment_score finding
     + 0.2 * FalsePositiveFeatureExtractor.extract_business_exception_score finding
     + 0.28.
Proof.
  destruct (classify_finding_result py_str finding) as (reasoning & E).
  cbv zeta in E. rewrite E. intro H. injection H as <-.
  cbn [FalsePositiveClassification.confidence].
  unfold FalsePositiveFeatureExtractor.extract_features.
  pose proof extract_business_exception_score_values as Hb.
  pose proof extract_severity_mismatch_score_values as Hs.
  cbv zeta in Hb, Hs.
  set (e := FalsePositiveFeatureExtractor.extract_environment_score finding) in *.
  set (b := FalsePositiveFeatureExtractor.extract_business_exception_score finding) in *.
  set (s := FalsePositiveFeatureExtractor.extract_severity_mismatch_score py_str finding) in *.
  assert (He : Spec.unit_interval e).
  { subst e. unfold FalsePositiveFeatureExtractor.extract_environment_score,
      Spec.unit_interval.
    destruct (Py.mem _ _); [lra|]. destruct (String.eqb _ _); lra. }
  unfold FalsePositiveFeatureExtractor.extract_historical_pattern_score,
    FalsePositiveFeatureExtractor.extract_temporal_pattern_score.
  rewrite linear_combination_unit;
    unfold Spec.unit_interval, Spec.linear_combination in *;
    destruct Hb as [-> | [-> | ->]], Hs as [-> | [-> | ->]]; lra.
Qed.

End Features.

(** The pattern and temporal analyzers of the source are neutral. *)
Lemma analyze_historical_patterns_neutral (finding : Finding.t) :
  PatternAnalysis.pattern_confidence (analyze_historical_patterns finding) = 0.5.
Proof. reflexivity. Qed.

Lemma analyze_temporal_context_neutral (finding : Finding.t) :
  calculate_temporal_score (TemporalAnalyzer.analyze_temporal_context finding) = 0.5.
Proof. reflexivity. Qed.

(** The sentence of the environment block opens the reasoning whenever the
    environment score is above 0.8. *)
Lemma combine_reasoning_environment (e : EnvironmentContext.t)
    (m : option FalsePositiveClassification.t) (p : option PatternAnalysis.t)
    (b : option BusinessContext.t) (t : option TemporalAnalysis.t) :
  Py.gt (calculate_environment_score e) 0.8 = true ->
  Py.contains
    (Classification.reasoning (combine_analysis_results (Some e) m p b t))
    "non-production environment" = true.
Proof.
  intro H.
  assert (K : exists rest,
             Classification.reasoning (combine_analysis_results (Some e) m p b t)
             = "Finding is in non-production environment" ++ rest).
  { unfold combine_analysis_results, record_result. rewrite H.
    destruct m as [m|];
      [destruct (Py.gt (FalsePositiveClassification.confidence m) 0.7)|];
      (destruct p as [p|];
       [destruct (Py.gt (PatternAnalysis.pattern_confidence p) 0.8)|]);
      (destruct b as [b|];
       [destruct (BusinessContext.has_business_exception b)|]);
      (destruct t as [t|];
       [destruct (TemporalAnalysis.is_temporary t)|]);
      cbv beta iota zeta; cbn [Classification.reasoning app Py.join String.concat];
      eexists; reflexivity. }
  destruct K as (rest & ->). apply contains_app_l. reflexivity.
Qed.

Lemma sum_below_half (xs : list Q) :
  Forall (fun y => y <= 0.5) xs -> fold_right Qplus 0 xs <= 0.5 * Py.len xs.
Proof.
  induction 1 as [|y ys Hy _ IH]; unfold Py.len in *.
  - simpl. change (inject_Z 0) with 0. lra.
  - change (List.length (y :: ys)) with (S (List.length ys)).
    rewrite Nat2Z.inj_succ, <- Z.add_1_r, inject_Z_plus.
    change (inject_Z 1) with 1. simpl fold_right. lra.
Qed.

Lemma mean_below_half (x : Q) (xs : list Q) :
  x < 0.5 -> Forall (fun y => y <= 0.5) xs -> Spec.arithmetic_mean (x :: xs) < 0.5.
Proof.
  intros Hx Hxs. pose proof (sum_below_half _ Hxs) as Hs.
  pose proof (len_pos x xs) as Hn.
  unfold Spec.arithmetic_mean. fold (Py.len (x :: xs)).
  assert (E : Py.len (x :: xs) == 1 + Py.len xs).
  { unfold Py.len. change (List.length (x :: xs)) with (S (List.length xs)).
    rewrite Nat2Z.inj_succ, <- Z.add_1_r, inject_Z_plus.
    change (inject_Z 1) with 1. lra. }
  apply Qlt_shift_div_r; [exact Hn|].
  simpl fold_right. rewrite E. lra.
Qed.

(** The combiner and the feature extractor score the environment alike. *)
Lemma environment_score_agrees (finding : Finding.t) :
  calculate_environment_score (analyze_environment_context finding)
  = FalsePositiveFeatureExtractor.extract_environment_score finding.
Proof. reflexivity. Qed.

Lemma extract_business_exception_score_le (finding : Finding.t) :
  FalsePositiveFeatureExtractor.extract_business_exception_score finding <= 0.8.
Proof.
  pose proof (extract_business_exception_score_values finding) as H. cbv zeta in H.
  destruct H as [-> | [-> | ->]]; lra.
Qed.

Lemma calculate_business_score_le (b : BusinessContext.t) :
  calculate_business_score b <= 0.8.
Proof.
  destruct (calculate_business_score_values b) as [-> | [-> | ->]]; lra.
Qed.

Lemma test_tier_mean_bound (ml bs : Q) :
  ml <= 0.71 -> bs <= 0.8 -> Spec.arithmetic_mean [0.9; ml; 0.5; bs; 0.5] <= 0.682.
Proof.
  intros Hml Hbs. unfold Spec.arithmetic_mean.
  apply Qle_shift_div_r; [reflexivity|].
  cbn [fold_right List.length]. change (inject_Z (Z.of_nat 5)) with 5. lra.
Qed.

(** The scores of a response to a request with the default options. *)
Lemma default_options_scores (py_str : Finding.t -> string) (clock : Clock.t)
    (finding : Finding.t) (r : Response.t) :
  analyze_finding py_str clock finding default_options = Returned r ->
  exists m,
    MLClassifier.classify_finding py_str finding = Some m
    /\ Spec.optional_scores r
       = [ FalsePositiveClassification.confidence m; 0.5;
           calculate_business_score
             (BusinessContextAnalyzer.analyze_business_context finding); 0.5 ].
Proof.
  intro Hr.
  destruct (analyze_finding_fields _ _ _ _ _ Hr) as (_ & M & P & B & T & _).
  destruct (classify_finding_result py_str finding) as (reasoning & Hm).
  cbv zeta in Hm. eexists. split; [exact Hm|].
  unfold Spec.optional_scores. rewrite M, P, B, T.
  change (Options.get (Options.include_ml_classification default_options)) with true.
  change (Options.get (Options.include_pattern_analysis default_options)) with true.
  change (Options.get (Options.include_business_context default_options)) with true.
  change (Options.get (Options.include_temporal_analysis default_options)) with true.
  cbv iota. rewrite Hm. reflexivity.
Qed.

(** With the default options a finding of the tier [test] stays below the 0.7
    threshold: its confidence is at most 0.682, although the reasoning names
    the non-production environment. *)
Lemma test_tier_default_options_below_threshold
    (py_str : Finding.t -> string) (clock : Clock.t) (finding : Finding.t) (i : string) :
  Finding.Id finding = Some i ->
  EnvironmentContext.environment (analyze_environment_context finding) = "test" ->
  exists r,
    analyze_finding py_str clock finding default_options = Returned r
    /\ Classification.confidence (Response.classification r) <= 0.682
    /\ Classification.is_false_positive (Response.classification r) = false
    /\ Py.contains (Classification.reasoning (Response.classification r))
         "non-production environment" = true.
Proof.
  intros Hid Htier.
  destruct (analyze_finding_returns py_str clock finding default_options i Hid)
    as (r & Hr).
  exists r. split; [exact Hr|].
  pose proof (analyze_finding_mean _ _ _ _ _ Hr) as Hmean.
  destruct (analyze_finding_fields _ _ _ _ _ Hr) as (E & _ & _ & _ & _ & _ & C).
  destruct (default_options_scores _ _ _ _ Hr) as (m & Hm & Hscores).
  assert (He : calculate_environment_score (Response.environment_analysis r) = 0.9).
  { rewrite E. unfold calculate_environment_score. rewrite Htier. reflexivity. }
  assert (He' : FalsePositiveFeatureExtractor.extract_environment_score finding = 0.9).
  { unfold FalsePositiveFeatureExtractor.extract_environment_score.
    rewrite Htier. reflexivity. }
  pose proof (classify_finding_bound py_str finding m Hm) as Hbound.
  rewrite He' in Hbound.
  pose proof (extract_business_exception_score_le finding) as Hbf.
  assert (Hml : FalsePositiveClassification.confidence m <= 0.71) by lra.
  assert (Hconf : Classification.confidence (Response.classification r) <= 0.682).
  { rewrite Hmean, Hscores, He.
    apply test_tier_mean_bound; [exact Hml | apply calculate_business_score_le]. }
  split; [exact Hconf|]. split.
  - rewrite C, combine_is_false_positive, <- C. apply gt_false_iff. lra.
  - rewrite C. apply combine_reasoning_environment. rewrite He. reflexivity.
Qed.

(** The key of a finding whose [Environment] tag is [production] is in no
    approved exception. *)
Lemma no_exception_for_production (finding : Finding.t) (r0 : Resource.t)
    (rest : list Resource.t) :
  Finding.get_Resources finding = r0 :: rest ->
  Py.dict_get (Resource.get_Tags r0) "Environment" "unknown" = "production" ->
  BusinessContextAnalyzer.has_business_exception finding = false.
Proof.
  intros Hres Htag.
  unfold BusinessContextAnalyzer.has_business_exception,
    BusinessContextAnalyzer.generate_finding_key.
  rewrite Hres, Htag. cbv zeta.
  set (sc := if (2 <=? _)%nat then _ else _).
  set (acct := Finding.get_AwsAccountId finding).
  assert (K : Py.contains (sc ++ ":" ++ "production" ++ ":" ++ acct) ":production" = true).
  { apply contains_app_r. reflexivity. }
  unfold Py.mem, BusinessContextAnalyzer.business_exceptions,
    BusinessContextAnalyzer.load_business_exceptions.
  cbn [existsb].
  repeat match goal with
         | |- context [String.eqb ?k ?c] =>
             destruct (String.eqb_spec k c) as [Heq | _];
             [rewrite Heq in K; discriminate K|]
         end.
  reflexivity.
Qed.

(** When the detected tier is [production] and the [Environment] tag is
    [production], the confidence is below 0.5 for every option record. *)
Lemma production_tier_below_half
    (py_str : Finding.t -> string) (clock : Clock.t) (finding : Finding.t)
    (options : Options.t) (i : string) (r0 : Resource.t) (rest : list Resource.t) :
  Finding.Id finding = Some i ->
  Finding.get_Resources finding = r0 :: rest ->
  Py.dict_get (Resource.get_Tags r0) "Environment" "unknown" = "production" ->
  EnvironmentContext.environment (analyze_environment_context finding) = "production" ->
  exists r,
    analyze_finding py_str clock finding options = Returned r
    /\ Classification.confidence (Response.classification r) < 0.5
    /\ Classification.is_false_positive (Response.classification r) = false
    /\ Classification.recommended_action (Response.classification r) = "REVIEW".
Proof.
  intros Hid Hres Htag Htier.
  destruct (analyze_finding_returns py_str clock finding options i Hid) as (r & Hr).
  exists r. split; [exact Hr|].
  pose proof (analyze_finding_mean _ _ _ _ _ Hr) as Hmean.
  destruct (analyze_finding_fields _ _ _ _ _ Hr) as (E & M & P & B & T & _ & C).
  pose proof (no_exception_for_production _ _ _ Hres Htag) as Hex.
  assert (He : calculate_environment_score (Response.environment_analysis r) = 0.1).
  { rewrite E. unfold calculate_environment_score. now rewrite Htier. }
  assert (He' : FalsePositiveFeatureExtractor.extract_environment_score finding = 0.1).
  { unfold FalsePositiveFeatureExtractor.extract_environment_score. now rewrite Htier. }
  assert (Hctx : BusinessContext.has_business_exception
                   (BusinessContextAnalyzer.analyze_business_context finding) = false).
  { unfold BusinessContextAnalyzer.analyze_business_context. rewrite Hres.
    cbn [BusinessContext.has_business_exception]. exact Hex. }
  assert (Hbs : calculate_business_score
                  (BusinessContextAnalyzer.analyze_business_context finding) <= 0.5).
  { unfold calculate_business_score. rewrite Hctx.
    destruct (BusinessContext.is_critical_resource _); lra. }
  assert (Hbf : FalsePositiveFeatureExtractor.extract_business_exception_score finding
                <= 0.5).
  { unfold FalsePositiveFeatureExtractor.extract_business_exception_score.
    rewrite Hctx. destruct (BusinessContext.is_critical_resource _); lra. }
  assert (Hml : forall m, MLClassifier.classify_finding py_str finding = Some m ->
                          FalsePositiveClassification.confidence m <= 0.5).
  { intros m Hm. pose proof (classify_finding_bound py_str finding m Hm) as Hb.
    rewrite He' in Hb. lra. }
  assert (Hopt : Forall (fun y => y <= 0.5) (Spec.optional_scores r)).
  { unfold Spec.optional_scores. rewrite M, P, B, T.
    destruct (Options.get (Options.include_ml_classification options)),
             (Options.get (Options.include_pattern_analysis options)),
             (Options.get (Options.include_business_context options)),
             (Options.get (Options.include_temporal_analysis options));
      try (destruct (MLClassifier.classify_finding py_str finding) as [m|] eqn:Hm;
           [specialize (Hml m eq_refl)|]);
      cbn [Spec.score_of app];
      rewrite ?analyze_historical_patterns_neutral, ?analyze_temporal_context_neutral;
      repeat (apply Forall_cons || apply Forall_nil);
      try assumption; lra. }
  assert (Hconf : Classification.confidence (Response.classification r) < 0.5).
  { rewrite Hmean. apply mean_below_half; [rewrite He; reflexivity | exact Hopt]. }
  split; [exact Hconf|]. split.
  - rewrite C, combine_is_false_positive, <- C. apply gt_false_iff. lra.
  - rewrite C. apply combine_review. rewrite <- C. lra.
Qed.

(* ================================================================== *)
(** * Further properties of the engine *)
(* ================================================================== *)

(** ** Bounds on what a request can return *)

Lemma sum_between (lo hi : Q) (xs : list Q) :
  Forall (fun y => lo <= y <= hi) xs ->
  lo * Py.len xs <= fold_right Qplus 0 xs <= hi * Py.len xs.
Proof.
  induction 1 as [|y ys [Hlo Hhi] _ IH]; unfold Py.len in *.
  - simpl. change (inject_Z 0) with 0. lra.
  - change (List.length (y :: ys)) with (S (List.length ys)).
    rewrite Nat2Z.inj_succ, <- Z.add_1_r, inject_Z_plus.
    change (inject_Z 1) with 1. simpl fold_right. lra.
Qed.

Lemma mean_between (lo hi : Q) (xs : list Q) :
  xs <> [] -> Forall (fun y => lo <= y <= hi) xs ->
  lo <= Spec.arithmetic_mean xs <= hi.
Proof.
  intros Hne Hall. destruct xs as [|x xs]; [congruence|].
  pose proof (sum_between lo hi _ Hall) as [Hlo Hhi].
  pose proof (len_pos x xs) as Hn.
  unfold Spec.arithmetic_mean. fold (Py.len (x :: xs)).
  set (s := fold_right Qplus 0 (x :: xs)) in *.
  set (n := Py.len (x :: xs)) in *.
  split.
  - apply Qle_shift_div_l; lra.
  - apply Qle_shift_div_r; lra.
Qed.

Lemma extract_environment_score_values (finding : Finding.t) :
  let e := FalsePositiveFeatureExtractor.extract_environment_score finding in
  e = 0.9 \/ e = 0.1 \/ e = 0.5.
Proof.
  cbv zeta. unfold FalsePositiveFeatureExtractor.extract_environment_score.
  destruct (Py.mem _ _); [auto|]. destruct (String.eqb _ _); auto.
Qed.

(** The classifier's confidence on a finding lies between 0.3 and 0.71. *)
Lemma classify_finding_range (py_str : Finding.t -> string) (finding : Finding.t)
    (m : FalsePositiveClassification.t) :
  MLClassifier.classify_finding py_str finding = Some m ->
  0.3 <= FalsePositiveClassification.confidence m <= 0.71.
Proof.
  destruct (classify_finding_result py_str finding) as (reasoning & E).
  cbv zeta in E. rewrite E. intro H. injection H as <-.
  cbn [FalsePositiveClassification.confidence].
  unfold FalsePositiveFeatureExtractor.extract_features.
  pose proof (extract_environment_score_values finding) as He.
  pose proof (extract_business_exception_score_values finding) as Hb.
  pose proof (extract_severity_mismatch_score_values py_str finding) as Hs.
  cbv zeta in He, Hb, Hs.
  unfold FalsePositiveFeatureExtractor.extract_historical_pattern_score,
    FalsePositiveFeatureExtractor.extract_temporal_pattern_score.
  set (e := FalsePositiveFeatureExtractor.extract_environment_score finding) in *.
  set (b := FalsePositiveFeatureExtractor.extract_business_exception_score finding) in *.
  set (s := FalsePositiveFeatureExtractor.extract_severity_mismatch_score py_str finding) in *.
  rewrite linear_combination_unit;
    unfold Spec.unit_interval, Spec.linear_combination;
    destruct He as [-> | [-> | ->]], Hb as [-> | [-> | ->]], Hs as [-> | [-> | ->]];
    lra.
Qed.

Section ResponseBounds.

Variable py_str : Finding.t -> string.
Variable clock : Clock.t.
Variables (finding : Finding.t) (options : Options.t) (r : Response.t).
Hypothesis Hr : analyze_finding py_str clock finding options = Returned r.

Lemma optional_scores_range :
  Forall (fun y => 0.1 <= y <= 0.9) (Spec.optional_scores r).
Proof.
  destruct (analyze_finding_fields _ _ _ _ _ Hr) as (_ & M & P & B & T & _).
  unfold Spec.optional_scores. rewrite M, P, B, T.
  pose proof (classify_finding_range py_str finding) as Hml.
  pose proof (calculate_business_score_values
                (BusinessContextAnalyzer.analyze_business_context finding)) as Hb.
  destruct (Options.get (Options.include_ml_classification options)),
           (Options.get (Options.include_pattern_analysis options)),
           (Options.get (Options.include_business_context options)),
           (Options.get (Options.include_temporal_analysis options));
    try (destruct (MLClassifier.classify_finding py_str finding) as [m|];
         [specialize (Hml m eq_refl)|]);
    cbn [Spec.score_of app];
    rewrite ?analyze_historical_patterns_neutral, ?analyze_temporal_context_neutral;
    repeat (apply Forall_cons || apply Forall_nil);
    try lra;
    destruct Hb as [-> | [-> | ->]]; lra.
Qed.

Lemma response_confidence_range :
  0.1 <= Classification.confidence (Response.classification r) <= 0.9.
Proof.
  pose proof (analyze_finding_mean _ _ _ _ _ Hr) as Hmean.
  assert (H : 0.1 <= Spec.arithmetic_mean
                (calculate_environment_score (Response.environment_analysis r)
                 :: Spec.optional_scores r) <= 0.9).
  { apply mean_between; [discriminate|].
    apply Forall_cons; [|apply optional_scores_range].
    destruct (calculate_environment_score_values (Response.environment_analysis r))
      as [-> | [-> | ->]]; lra. }
  lra.
Qed.

End ResponseBounds.

(** X1. Whatever the finding and the options are, the confidence of a
    response lies between 0.1 and 0.9, so the engine never recommends
    SUPPRESS: the action is DOWNGRADE or REVIEW. *)
Theorem engine_never_suppresses :
  forall (py_str : Finding.t -> string) (clock : Clock.t)
         (finding : Finding.t) (options : Options.t) (i : string),
    Finding.Id finding = Some i ->
    exists r,
      analyze_finding py_str clock finding options = Returned r
      /\ 0.1 <= Classification.confidence (Response.classification r) <= 0.9
      /\ Classification.recommended_action (Response.classification r) <> "SUPPRESS"
      /\ (Classification.recommended_action (Response.classification r) = "DOWNGRADE"
          \/ Classification.recommended_action (Response.classification r) = "REVIEW").
Proof.
  intros py_str clock finding options i Hid.
  destruct (analyze_finding_returns py_str clock finding options i Hid) as (r & Hr).
  exists r. split; [exact Hr|].
  pose proof (response_confidence_range _ _ _ _ _ Hr) as Hc.
  split; [exact Hc|].
  destruct (analyze_finding_fields _ _ _ _ _ Hr) as (_ & _ & _ & _ & _ & _ & C).
  rewrite C, combine_recommended_action, <- C.
  destruct (gt_cases (Classification.confidence (Response.classification r)) 0.9)
    as [[_ H] | [-> _]]; [lra|].
  destruct (Py.gt _ 0.7); split; (discriminate || auto).
Qed.

Lemma engine_never_suppresses_witness :
  Finding.Id development_finding <> None
  /\ exists r,
       analyze_finding sample_str sample_clock development_finding all_disabled
       = Returned r
       /\ Classification.recommended_action (Response.classification r) <> "SUPPRESS".
Proof.
  split; [discriminate|].
  destruct (engine_never_suppresses sample_str sample_clock development_finding
              all_disabled _ eq_refl) as (r & Hr & _ & H & _).
  exists r. split; assumption.
Defined.

(** ** Requests that enable the four optional analyzers *)

Lemma all_enabled_mean_bound (e ml bs : Q) :
  e <= 0.9 -> ml <= 0.71 -> bs <= 0.8 ->
  Spec.arithmetic_mean [e; ml; 0.5; bs; 0.5] <= 0.682.
Proof.
  intros He Hml Hbs. unfold Spec.arithmetic_mean.
  apply Qle_shift_div_r; [reflexivity|].
  cbn [fold_right List.length]. change (inject_Z (Z.of_nat 5)) with 5. lra.
Qed.

Lemma all_enabled_scores (py_str : Finding.t -> string) (clock : Clock.t)
    (finding : Finding.t) (options : Options.t) (r : Response.t) :
  Props.all_enabled options ->
  analyze_finding py_str clock finding options = Returned r ->
  exists m,
    MLClassifier.classify_finding py_str finding = Some m
    /\ Spec.optional_scores r
       = [ FalsePositiveClassification.confidence m; 0.5;
           calculate_business_score
             (BusinessContextAnalyzer.analyze_business_context finding); 0.5 ].
Proof.
  intros (Om & Op & Ob & Ot) Hr.
  destruct (analyze_finding_fields _ _ _ _ _ Hr) as (_ & M & P & B & T & _).
  destruct (classify_finding_result py_str finding) as (reasoning & Hm).
  cbv zeta in Hm. eexists. split; [exact Hm|].
  unfold Spec.optional_scores. rewrite M, P, B, T, Om, Op, Ob, Ot, Hm. reflexivity.
Qed.

(** X2. When the four optional analyzers are enabled (the default), no
    finding is classified as a false positive: the confidence is at most
    0.682 and the action is REVIEW. *)
Theorem all_enabled_never_false_positive :
  forall (py_str : Finding.t -> string) (clock : Clock.t)
         (finding : Finding.t) (options : Options.t) (i : string),
    Finding.Id finding = Some i ->
    Props.all_enabled options ->
    exists r,
      analyze_finding py_str clock finding options = Returned r
      /\ Classification.confidence (Response.classification r) <= 0.682
      /\ Classification.is_false_positive (Response.classification r) = false
      /\ Classification.recommended_action (Response.classification r) = "REVIEW".
Proof.
  intros py_str clock finding options i Hid Hall.
  destruct (analyze_finding_returns py_str clock finding options i Hid) as (r & Hr).
  exists r. split; [exact Hr|].
  pose proof (analyze_finding_mean _ _ _ _ _ Hr) as Hmean.
  destruct (analyze_finding_fields _ _ _ _ _ Hr) as (_ & _ & _ & _ & _ & _ & C).
  destruct (all_enabled_scores _ _ _ _ _ Hall Hr) as (m & Hm & Hscores).
  pose proof (classify_finding_range py_str finding m Hm) as Hml.
  assert (Hconf : Classification.confidence (Response.classification r) <= 0.682).
  { rewrite Hmean, Hscores. apply all_enabled_mean_bound.
    - destruct (calculate_environment_score_values (Response.environment_analysis r))
        as [-> | [-> | ->]]; lra.
    - lra.
    - apply calculate_business_score_le. }
  split; [exact Hconf|]. split.
  - rewrite C, combine_is_false_positive, <- C. apply gt_false_iff. lra.
  - rewrite C. apply combine_review. rewrite <- C. lra.
Qed.

Lemma all_enabled_never_false_positive_witness :
  Finding.Id development_finding <> None
  /\ Props.all_enabled default_options
  /\ exists r,
       analyze_finding sample_str sample_clock development_finding default_options
       = Returned r
       /\ Classification.is_false_positive (Response.classification r) = false.
Proof.
  assert (Hall : Props.all_enabled default_options) by (repeat split).
  split; [discriminate|]. split; [exact Hall|].
  destruct (all_enabled_never_false_positive sample_str sample_clock
              development_finding default_options _ eq_refl Hall)
    as (r & Hr & _ & H & _).
  exists r. split; assumption.
Defined.

(** ** The classifier on a finding *)

Lemma Q_tenths_discr : 0.9 <> 0.1 /\ 0.9 <> 0.5 /\ 0.8 <> 0.2 /\ 0.8 <> 0.5 /\ 0.8 <> 0.3.
Proof. repeat split; discriminate. Qed.

(** X3. The classifier always answers on a finding, with a confidence between
    0.3 and 0.71, and it reports a false positive in one case only: the tier
    is non-production, the finding has an approved business exception, and
    the severity is CRITICAL with ["test"] in the text of the finding. *)
Theorem classifier_false_positive_case :
  forall (py_str : Finding.t -> string) (finding : Finding.t),
    exists c,
      MLClassifier.classify_finding py_str finding = Some c
      /\ 0.3 <= FalsePositiveClassification.confidence c <= 0.71
      /\ (FalsePositiveClassification.is_false_positive c = true
          <-> Py.mem (EnvironmentContext.environment (analyze_environment_context finding))
                ["test"; "development"; "staging"] = true
              /\ BusinessContext.has_business_exception
                   (BusinessContextAnalyzer.analyze_business_context finding) = true
              /\ Finding.get_Severity_Label finding = "CRITICAL"
              /\ Py.contains (Py.lower (py_str finding)) "test" = true).
Proof.
  intros py_str finding.
  destruct (classify_finding_result py_str finding) as (reasoning & Hc).
  cbv zeta in Hc. eexists. split; [exact Hc|].
  split; [exact (classify_finding_range py_str finding _ Hc)|].
  cbn [FalsePositiveClassification.is_false_positive].
  unfold FalsePositiveFeatureExtractor.extract_features,
    FalsePositiveFeatureExtractor.extract_environment_score,
    FalsePositiveFeatureExtractor.extract_historical_pattern_score,
    FalsePositiveFeatureExtractor.extract_business_exception_score,
    FalsePositiveFeatureExtractor.extract_temporal_pattern_score,
    FalsePositiveFeatureExtractor.extract_severity_mismatch_score.
  cbv zeta.
  rewrite <- (String.eqb_eq (Finding.get_Severity_Label finding) "CRITICAL").
  set (tier := EnvironmentContext.environment (analyze_environment_context finding)).
  set (bc := BusinessContextAnalyzer.analyze_business_context finding).
  set (sev := Finding.get_Severity_Label finding).
  set (txt := Py.lower (py_str finding)).
  destruct (Py.mem tier ["test"; "development"; "staging"]),
           (String.eqb tier "production"),
           (BusinessContext.has_business_exception bc),
           (BusinessContext.is_critical_resource bc),
           (String.eqb sev "CRITICAL"),
           (Py.contains txt "test"),
           (String.eqb sev "LOW"),
           (Py.contains txt "production");
    cbn [andb];
    (split; [intro H; try (vm_compute in H; discriminate H); auto
            | intros (H1 & H2 & H3 & H4); try discriminate; vm_compute; reflexivity]).
Qed.

(** ** The analyzers a response names and carries *)

Lemma in_models_used (options : Options.t) (name : string) :
  In name Props.optional_analyzers ->
  (In name (get_models_used options) <-> Props.enabled options name = true).
Proof.
  unfold get_models_used, Props.enabled.
  intros [<- | [<- | [<- | [<- | []]]]];
    destruct (Options.get (Options.include_ml_classification options)),
             (Options.get (Options.include_pattern_analysis options)),
             (Options.get (Options.include_business_context options)),
             (Options.get (Options.include_temporal_analysis options));
    cbn; intuition (discriminate || congruence).
Qed.

Lemma models_used_NoDup (options : Options.t) : NoDup (get_models_used options).
Proof.
  unfold get_models_used.
  destruct (Options.get (Options.include_ml_classification options)),
           (Options.get (Options.include_pattern_analysis options)),
           (Options.get (Options.include_business_context options)),
           (Options.get (Options.include_temporal_analysis options));
    cbn [app];
    repeat (apply NoDup_cons; [cbn; intuition discriminate|]); apply NoDup_nil.
Qed.

(** X4. For each optional analyzer, its name is in [models_used] exactly when
    its option is enabled, and exactly then the response carries its
    analysis; a disabled analyzer leaves [None].  [models_used] names no
    analyzer twice. *)
Theorem models_used_matches_options :
  forall (py_str : Finding.t -> string) (clock : Clock.t)
         (finding : Finding.t) (options : Options.t) (r : Response.t) (name : string),
    analyze_finding py_str clock finding options = Returned r ->
    In name Props.optional_analyzers ->
    (In name (ProcessingMetadata.models_used (Response.processing_metadata r))
     <-> Props.enabled options name = true)
    /\ Props.carried r name = Props.enabled options name
    /\ NoDup (ProcessingMetadata.models_used (Response.processing_metadata r)).
Proof.
  intros py_str clock finding options r name Hr Hin.
  destruct (analyze_finding_fields _ _ _ _ _ Hr) as (_ & M & P & B & T & U & _).
  rewrite U. split; [now apply in_models_used|].
  split; [|apply models_used_NoDup].
  destruct (classify_finding_result py_str finding) as (reasoning & Hc).
  cbv zeta in Hc. rewrite Hc in M.
  unfold Props.carried, Props.enabled. rewrite M, P, B, T.
  destruct Hin as [<- | [<- | [<- | [<- | []]]]]; cbn [String.eqb Ascii.eqb Bool.eqb];
    match goal with |- context [Options.get ?o] => destruct (Options.get o) end;
    reflexivity.
Qed.

Lemma models_used_matches_options_witness :
  exists r,
    analyze_finding sample_str sample_clock development_finding all_disabled = Returned r
    /\ Props.carried r "ml_classifier" = false
    /\ ~ In "ml_classifier" (ProcessingMetadata.models_used (Response.processing_metadata r)).
Proof.
  eexists. split; [reflexivity|].
  assert (Hin : In "ml_classifier" Props.optional_analyzers) by (left; reflexivity).
  destruct (models_used_matches_options sample_str sample_clock development_finding
              all_disabled _ "ml_classifier" eq_refl Hin) as (H1 & H2 & _).
  split; [exact H2|]. intro H. apply H1 in H. discriminate H.
Defined.

(** ** Substrings *)

Lemma prefix_iff (p t : string) :
  String.prefix p t = true <-> exists b, t = p ++ b.
Proof.
  split.
  - revert t. induction p as [|c p IH]; intros t H.
    + exists t. reflexivity.
    + destruct t as [|d t]; simpl in H; [discriminate|].
      destruct (ascii_dec c d) as [<- |]; [|discriminate].
      destruct (IH _ H) as (b & ->). exists b. reflexivity.
  - intros (b & ->). induction p as [|c p IH]; [apply prefix_nil|].
    simpl. destruct (ascii_dec c c); [exact IH | congruence].
Qed.

Lemma contains_self (p : string) : Py.contains p p = true.
Proof.
  assert (H : String.prefix p p = true).
  { apply prefix_iff. exists "". induction p as [|c p IH]; simpl; congruence. }
  destruct p; [reflexivity|]. rewrite contains_cons, H. reflexivity.
Qed.

Lemma contains_iff (t p : string) :
  Py.contains t p = true <-> exists a b, t = a ++ p ++ b.
Proof.
  split.
  - induction t as [|c t IH]; intro H.
    + simpl in H. rewrite orb_false_r in H. apply prefix_of_nil in H as ->.
      exists "", "". reflexivity.
    + rewrite contains_cons in H. apply orb_true_iff in H as [H | H].
      * apply prefix_iff in H as (b & H). exists "", b. exact H.
      * destruct (IH H) as (a & b & ->). exists (String c a), b. reflexivity.
  - intros (a & b & ->). apply contains_app_r, contains_app_l, contains_self.
Qed.

Lemma string_app_assoc (a b c : string) : (a ++ b) ++ c = a ++ b ++ c.
Proof. induction a as [|x a IH]; simpl; congruence. Qed.

Lemma contains_trans (t p q : string) :
  Py.contains t p = true -> Py.contains p q = true -> Py.contains t q = true.
Proof.
  intros H1 H2. apply contains_iff in H1 as (a & b & ->).
  apply contains_iff in H2 as (a' & b' & ->).
  apply contains_iff. exists (a ++ a'), (b' ++ b).
  now rewrite !string_app_assoc.
Qed.

(** ** Critical resources *)

Lemma prefix_cons (c d : ascii) (p t : string) :
  String.prefix (String c p) (String d t)
  = if ascii_dec c d then String.prefix p t else false.
Proof. reflexivity. Qed.

Lemma prefix_cons_neq (c d : ascii) (p t : string) :
  c <> d -> String.prefix (String c p) (String d t) = false.
Proof.
  intro H. rewrite prefix_cons. destruct (ascii_dec c d); [congruence | reflexivity].
Qed.

Lemma prefix_cons_eq (c : ascii) (p t : string) :
  String.prefix (String c p) (String c t) = String.prefix p t.
Proof.
  rewrite prefix_cons. destruct (ascii_dec c c); [reflexivity | congruence].
Qed.

Lemma free_then_no_triple_colon (a : string) :
  Props.free_of ":" a -> Py.contains (a ++ ":root") ":::" = false.
Proof.
  induction a as [|c a IH]; intro H; [reflexivity|].
  destruct H as [Hc Ha].
  change (String c a ++ ":root") with (String c (a ++ ":root")).
  rewrite contains_cons, (IH Ha).
  change ":::" with (String ":" "::").
  rewrite prefix_cons_neq by congruence. reflexivity.
Qed.

Lemma root_arn_no_triple_colon (account : string) :
  account <> "" -> Props.free_of ":" account ->
  Py.contains ("arn:aws:iam::" ++ account ++ ":root") ":::" = false.
Proof.
  intros Hne Hfree. destruct account as [|c a]; [congruence|].
  destruct Hfree as [Hc Ha].
  pose proof (free_then_no_triple_colon a Ha) as Htail.
  change ("arn:aws:iam::" ++ String c a ++ ":root")
    with ("arn:aws:iam" ++ String ":" (String ":" (String c (a ++ ":root")))).
  assert (H2 : Py.contains (String ":" (String ":" (String c (a ++ ":root")))) ":::"
               = false).
  { rewrite !contains_cons, Htail.
    change ":::" with (String ":" (String ":" (String ":" ""))).
    rewrite !prefix_cons_eq.
    rewrite !prefix_cons_neq by congruence. reflexivity. }
  cbn [append]. rewrite !contains_cons in *. rewrite H2. reflexivity.
Qed.

(** X5. A resource is critical only if its identifier holds three colons in
    a row, since each critical pattern does once its [*] are dropped: an
    identifier that holds the S3 production-data prefix is critical, and the
    root ARN of an account (a non-empty account id without colon) is not. *)
Theorem critical_resource_needs_triple_colon :
  (forall resource_id,
     BusinessContextAnalyzer.is_critical_resource resource_id = true ->
     Py.contains resource_id ":::" = true)
  /\ (forall before after,
        BusinessContextAnalyzer.is_critical_resource
          (before ++ "arn:aws:s3:::production-data-" ++ after) = true)
  /\ (forall account,
        account <> "" -> Props.free_of ":" account ->
        BusinessContextAnalyzer.is_critical_resource
          ("arn:aws:iam::" ++ account ++ ":root") = false).
Proof.
  assert (K : forall resource_id,
             BusinessContextAnalyzer.is_critical_resource resource_id = true ->
             Py.contains resource_id ":::" = true).
  { intros resource_id H.
    unfold BusinessContextAnalyzer.is_critical_resource in H.
    apply existsb_exists in H as (pattern & Hin & Hm).
    unfold BusinessContextAnalyzer.matches_pattern in Hm.
    apply (contains_trans _ _ _ Hm).
    destruct Hin as [<- | [<- | [<- | []]]]; reflexivity. }
  split; [exact K|]. split.
  - intros before after.
    unfold BusinessContextAnalyzer.is_critical_resource.
    apply existsb_exists. exists "arn:aws:s3:::production-data-*".
    split; [right; left; reflexivity|].
    unfold BusinessContextAnalyzer.matches_pattern.
    apply contains_iff. exists before, after. reflexivity.
  - intros account Hne Hfree.
    destruct (BusinessContextAnalyzer.is_critical_resource _) eqn:E; [|reflexivity].
    apply K in E. rewrite root_arn_no_triple_colon in E by assumption. discriminate.
Qed.

(** ** The business context *)

(** X6. In the business context of a finding the impact is HIGH exactly when
    the resource is critical and UNKNOWN exactly when the finding has no
    resource; MEDIUM needs a HIGH or CRITICAL severity on a resource that is
    neither critical nor excepted; a review is required exactly when the
    resource is critical or excepted; and with no resource nothing is
    flagged. *)
Theorem business_context_impact :
  forall finding : Finding.t,
    let context := BusinessContextAnalyzer.analyze_business_context finding in
    let impact := BusinessContext.business_impact context in
    let severity := Finding.get_Severity_Label finding in
    (impact = "HIGH" <-> BusinessContext.is_critical_resource context = true)
    /\ (impact = "UNKNOWN" <-> Finding.get_Resources finding = [])
    /\ (impact = "MEDIUM" <->
        Finding.get_Resources finding <> []
        /\ BusinessContext.is_critical_resource context = false
        /\ BusinessContext.has_business_exception context = false
        /\ (severity = "HIGH" \/ severity = "CRITICAL"))
    /\ (impact = "HIGH" \/ impact = "MEDIUM" \/ impact = "LOW" \/ impact = "UNKNOWN")
    /\ (BusinessContext.requires_business_review context = true <->
        BusinessContext.is_critical_resource context = true
        \/ BusinessContext.has_business_exception context = true)
    /\ (Finding.get_Resources finding = [] ->
        BusinessContext.is_critical_resource context = false
        /\ BusinessContext.has_business_exception context = false
        /\ BusinessContext.requires_business_review context = false).
Proof.
  intro finding. cbv zeta.
  unfold BusinessContextAnalyzer.analyze_business_context.
  destruct (Finding.get_Resources finding) as [|r rest].
  { cbn. repeat split; intros;
      repeat match goal with
             | H : _ /\ _ |- _ => destruct H
             | H : _ \/ _ |- _ => destruct H
             end;
      try discriminate; try congruence; auto. }
  cbn [BusinessContext.business_impact BusinessContext.is_critical_resource
       BusinessContext.has_business_exception BusinessContext.requires_business_review].
  unfold BusinessContextAnalyzer.assess_business_impact, Py.mem.
  cbn [existsb].
  destruct (BusinessContextAnalyzer.is_critical_resource (Resource.get_Id r)),
           (BusinessContextAnalyzer.has_business_exception finding);
    try (destruct (String.eqb_spec (Finding.get_Severity_Label finding) "HIGH");
         destruct (String.eqb_spec (Finding.get_Severity_Label finding) "CRITICAL"));
    cbn [orb];
    repeat split; intros;
    repeat match goal with
           | H : _ /\ _ |- _ => destruct H
           | H : _ \/ _ |- _ => destruct H
           end;
    try discriminate; try congruence; auto.
Qed.

(** ** Letter case *)

Lemma lower_char_idem (c : ascii) : Py.lower_char (Py.lower_char c) = Py.lower_char c.
Proof. destruct c as [[] [] [] [] [] [] [] []]; reflexivity. Qed.

Lemma lower_idem (s : string) : Py.lower (Py.lower s) = Py.lower s.
Proof.
  induction s as [|c s IH]; [reflexivity|].
  simpl. now rewrite lower_char_idem, IH.
Qed.

Lemma values_lower_tags (tags : list (string * string)) :
  values (Props.lower_tags tags) = map Py.lower (values tags).
Proof.
  unfold values, Props.lower_tags. rewrite !map_map. reflexivity.
Qed.

Lemma text_to_analyze_lower (resource_arn : string) (tags : list (string * string)) :
  text_to_analyze (Py.lower resource_arn) (Props.lower_tags tags)
  = text_to_analyze resource_arn tags.
Proof.
  unfold text_to_analyze.
  rewrite values_lower_tags, !lower_app, !lower_join, lower_idem.
  rewrite map_map. f_equal. f_equal. f_equal.
  apply map_ext. intro v. apply lower_idem.
Qed.

(** X7. The tier does not depend on letter case: lower-casing the identifier
    and the tag values of a resource leaves [detect_environment] unchanged,
    and two resources whose identifiers and tag values differ by case only
    get the same tier. *)
Theorem detect_environment_case_insensitive :
  forall (resource_arn resource_arn' : string) (tags tags' : list (string * string)),
    detect_environment (Py.lower resource_arn) (Props.lower_tags tags)
    = detect_environment resource_arn tags
    /\ (Py.lower resource_arn = Py.lower resource_arn' ->
        map Py.lower (values tags) = map Py.lower (values tags') ->
        detect_environment resource_arn tags = detect_environment resource_arn' tags').
Proof.
  intros resource_arn resource_arn' tags tags'. split.
  - unfold detect_environment. now rewrite text_to_analyze_lower.
  - intros Harn Htags. unfold detect_environment, text_to_analyze.
    rewrite !lower_app, !lower_join, Harn, Htags. reflexivity.
Qed.

(** ** Keywords that never decide *)

(** X8. A resource gets the tier [development] only through the keyword
    ['feature'] or ['branch']: ['dev'] and ['development'] are caught by the
    test-like set first.  A resource gets the tier [production] only when its
    text holds ['prod'], ['live'] or ['main'] and no test-like keyword. *)
Theorem development_tier_keywords :
  forall (resource_arn : string) (tags : list (string * string)),
    let text := text_to_analyze resource_arn tags in
    (detect_environment resource_arn tags = "development" ->
     (Py.contains text "feature" = true \/ Py.contains text "branch" = true)
     /\ Py.contains text "dev" = false)
    /\ (detect_environment resource_arn tags = "production" ->
        (Py.contains text "prod" = true \/ Py.contains text "live" = true
         \/ Py.contains text "main" = true)
        /\ Py.any_in text Spec.test_like = false).
Proof.
  intros resource_arn tags text. subst text.
  unfold detect_environment. rewrite detect_loop_unfold.
  set (text := text_to_analyze resource_arn tags).
  destruct (Py.any_in text Spec.test_like) eqn:T; [split; discriminate|].
  assert (Hdev : Py.contains text "dev" = false).
  { destruct (Py.contains text "dev") eqn:D; [|reflexivity].
    assert (A : Py.any_in text Spec.test_like = true).
    { apply any_in_iff. exists "dev". split; [simpl; auto | exact D]. }
    congruence. }
  destruct (Py.any_in text Spec.production_like) eqn:P.
  - split; [discriminate|]. intros _. split; [|reflexivity].
    apply any_in_iff in P as (k & Hin & Hk).
    destruct Hin as [<- | [<- | [<- | [<- | []]]]]; auto.
    left. now apply (contains_app_pattern "prod" "uction").
  - destruct (Py.any_in text Spec.development_like) eqn:D; [|split; discriminate].
    split; [|discriminate]. intros _. split; [|exact Hdev].
    apply any_in_iff in D as (k & Hin & Hk).
    destruct Hin as [<- | [<- | [<- | [<- | []]]]]; auto.
    + congruence.
    + apply (contains_app_pattern "dev" "elopment") in Hk. congruence.
Qed.

(** ** Segments of an identifier *)

Lemma split_nonempty (sep : ascii) (s : string) : Py.split sep s <> [].
Proof.
  destruct s as [|c s]; simpl; [discriminate|].
  destruct (Ascii.eqb c sep); [discriminate|].
  destruct (Py.split sep s); discriminate.
Qed.

(** Joining the parts of a split gives the text back. *)
Lemma join_split (sep : ascii) (s : string) :
  Py.join (String sep "") (Py.split sep s) = s.
Proof.
  unfold Py.join. induction s as [|c s IH]; [reflexivity|].
  simpl Py.split. destruct (Ascii.eqb_spec c sep) as [-> | Hne].
  - pose proof (split_nonempty sep s) as Hn.
    destruct (Py.split sep s) as [|h t]; [congruence|].
    change (String.concat (String sep "") ("" :: h :: t))
      with (String sep (String.concat (String sep "") (h :: t))).
    now rewrite IH.
  - pose proof (split_nonempty sep s) as Hn.
    destruct (Py.split sep s) as [|h t]; [congruence|].
    destruct t as [|h' t'].
    + simpl in *. now rewrite IH.
    + change (String.concat (String sep "") (String c h :: h' :: t'))
        with (String c (String.concat (String sep "") (h :: h' :: t'))).
      now rewrite IH.
Qed.

Lemma split_free (sep : ascii) (s : string) :
  Forall (Props.free_of sep) (Py.split sep s).
Proof.
  induction s as [|c s IH]; simpl; [repeat constructor|].
  destruct (Ascii.eqb_spec c sep) as [-> | Hne].
  - constructor; [exact I | exact IH].
  - destruct (Py.split sep s) as [|h t]; [repeat constructor; assumption|].
    inversion IH; subst. constructor; [split; assumption | assumption].
Qed.

Lemma last_item_suffix (sep : string) (parts : list string) :
  parts <> [] -> exists before, Py.join sep parts = before ++ Py.last_item parts.
Proof.
  unfold Py.join, Py.last_item. induction parts as [|x xs IH]; [congruence|]. intros _.
  destruct xs as [|y ys]; [exists ""; reflexivity|].
  destruct IH as (before & E); [discriminate|].
  exists (x ++ sep ++ before).
  change (String.concat sep (x :: y :: ys))
    with (x ++ sep ++ String.concat sep (y :: ys)).
  change (last (x :: y :: ys) "") with (last (y :: ys) "").
  rewrite E, !string_app_assoc. reflexivity.
Qed.

Lemma last_item_free (sep : ascii) (s : string) :
  Props.free_of sep (Py.last_item (Py.split sep s)).
Proof.
  pose proof (split_free sep s) as H. pose proof (split_nonempty sep s) as Hn.
  unfold Py.last_item. induction H as [|x xs Hx Hxs IH]; [congruence|].
  destruct xs as [|y ys]; [exact Hx|]. apply IH. discriminate.
Qed.

Lemma last_segment_suffix (sep : ascii) (s : string) :
  exists before, s = before ++ Py.last_item (Py.split sep s).
Proof.
  destruct (last_item_suffix (String sep "") (Py.split sep s) (split_nonempty sep s))
    as (before & E).
  exists before. now rewrite <- E, join_split.
Qed.

(** The control part of the exception key is the last segment of the
    generator id in both branches of the source. *)
Lemma service_control_last_segment (generator_id : string) :
  (if (2 <=? List.length (Py.split "/" generator_id))%nat
   then Py.last_item (Py.split "/" generator_id) else generator_id)
  = Py.last_item (Py.split "/" generator_id).
Proof.
  destruct (2 <=? List.length (Py.split "/" generator_id))%nat eqn:E; [reflexivity|].
  apply Nat.leb_gt in E.
  pose proof (join_split "/" generator_id) as J.
  pose proof (split_nonempty "/" generator_id) as Hn.
  destruct (Py.split "/" generator_id) as [|x [|y ys]]; [congruence| |simpl in E; lia].
  simpl in J. now rewrite J.
Qed.



(** ** Approved exceptions *)

Lemma generate_finding_key_parts (finding : Finding.t) :
  BusinessContextAnalyzer.generate_finding_key finding
  = Py.last_item (Py.split "/" (Finding.get_GeneratorId finding))
    ++ ":"
    ++ match Finding.get_Resources finding with
       | [] => "unknown"
       | first :: _ => Py.dict_get (Resource.get_Tags first) "Environment" "unknown"
       end
    ++ ":" ++ Finding.get_AwsAccountId finding.
Proof.
  unfold BusinessContextAnalyzer.generate_finding_key. cbv zeta.
  now rewrite service_control_last_segment.
Qed.

Lemma count_char_app (c : ascii) (a b : string) :
  Props.count_char c (a ++ b) = (Props.count_char c a + Props.count_char c b)%nat.
Proof. induction a as [|d a IH]; simpl; [reflexivity | rewrite IH; lia]. Qed.

Lemma split_of_free (sep : ascii) (s : string) :
  Props.count_char sep s = 0%nat -> Py.split sep s = [s].
Proof.
  induction s as [|c s IH]; [reflexivity|]. simpl.
  destruct (Ascii.eqb c sep); [discriminate|].
  intro H. now rewrite IH.
Qed.

Lemma split_app_sep (sep : ascii) (a b : string) :
  Props.count_char sep a = 0%nat ->
  Py.split sep (a ++ String sep b) = a :: Py.split sep b.
Proof.
  induction a as [|c a IH]; simpl.
  - now rewrite Ascii.eqb_refl.
  - destruct (Ascii.eqb c sep); [discriminate|].
    intro H. now rewrite IH.
Qed.

(** A text [control:environment:account] with two colons in all splits into
    its three parts. *)
Lemma key_parts (control environment account : string) :
  Props.count_char ":" (control ++ ":" ++ environment ++ ":" ++ account) = 2%nat ->
  Py.split ":" (control ++ ":" ++ environment ++ ":" ++ account)
  = [control; environment; account].
Proof.
  intro H.
  change (control ++ ":" ++ environment ++ ":" ++ account)
    with (control ++ String ":" (environment ++ String ":" account)) in *.
  rewrite count_char_app in H. simpl in H.
  rewrite count_char_app in H. simpl in H.
  rewrite !split_app_sep, split_of_free by lia. reflexivity.
Qed.

Lemma mem_In (x : string) (xs : list string) : Py.mem x xs = true <-> In x xs.
Proof.
  unfold Py.mem. rewrite existsb_exists. split.
  - intros (y & Hin & E). apply String.eqb_eq in E. now subst.
  - intro H. exists x. split; [exact H | apply String.eqb_refl].
Qed.

Lemma dict_get_in (d : list (string * string)) (key default v : string) :
  Py.dict_get d key default = v -> v <> default -> In v (values d).
Proof.
  intros H Hne. induction d as [|[k w] d IH]; simpl in *; [congruence|].
  destruct (String.eqb k key); [left; exact H | right; auto].
Qed.

(** The three parts of the key of a finding that has an approved exception. *)
Lemma exception_key_cases (control environment account : string) :
  In (control ++ ":" ++ environment ++ ":" ++ account)
     BusinessContextAnalyzer.business_exceptions ->
  In (control, environment, account)
     [ ("IAM.1", "development", "test-account");
       ("S3.1", "staging", "demo-bucket");
       ("EC2.1", "dev", "test-instance") ].
Proof.
  intro Hin.
  assert (Hcount : Props.count_char ":" (control ++ ":" ++ environment ++ ":" ++ account)
                   = 2%nat).
  { destruct Hin as [<- | [<- | [<- | []]]]; reflexivity. }
  pose proof (key_parts _ _ _ Hcount) as Hsplit.
  destruct Hin as [E | [E | [E | []]]]; rewrite <- E in Hsplit;
    injection Hsplit as <- <- <-; simpl; auto.
Qed.

(** What an approved exception says about a finding. *)
Lemma exception_facts (finding : Finding.t) :
  BusinessContextAnalyzer.has_business_exception finding = true ->
  In (Finding.get_AwsAccountId finding) Props.exception_accounts
  /\ In (Py.last_item (Py.split "/" (Finding.get_GeneratorId finding)))
        ["IAM.1"; "S3.1"; "EC2.1"]
  /\ (exists first rest,
        Finding.get_Resources finding = first :: rest
        /\ In (Py.dict_get (Resource.get_Tags first) "Environment" "unknown")
              ["development"; "staging"; "dev"])
  /\ EnvironmentContext.environment (analyze_environment_context finding) = "test".
Proof.
  intro H.
  unfold BusinessContextAnalyzer.has_business_exception in H.
  apply mem_In in H. rewrite generate_finding_key_parts in H.
  apply exception_key_cases in H.
  set (account := Finding.get_AwsAccountId finding) in *.
  set (control := Py.last_item _) in *.
  destruct (Finding.get_Resources finding) as [|first rest] eqn:Hres.
  { destruct H as [E | [E | [E | []]]]; discriminate E. }
  set (environment := Py.dict_get (Resource.get_Tags first) "Environment" "unknown") in *.
  assert (Henv : In environment ["development"; "staging"; "dev"]
                 /\ In account Props.exception_accounts
                 /\ In control ["IAM.1"; "S3.1"; "EC2.1"]).
  { destruct H as [E | [E | [E | []]]]; injection E as <- <- <-; simpl; auto 6. }
  destruct Henv as (Henv & Hacct & Hctl).
  split; [exact Hacct|]. split; [exact Hctl|].
  split; [exists first, rest; split; [reflexivity | exact Henv]|].
  unfold analyze_environment_context. rewrite Hres.
  cbn [EnvironmentContext.environment].
  assert (Hv : In environment (values (Resource.get_Tags first))).
  { apply (dict_get_in _ "Environment" "unknown"); [reflexivity|].
    destruct Henv as [<- | [<- | [<- | []]]]; discriminate. }
  assert (Hkw : exists keyword,
             In keyword Spec.test_like
             /\ Spec.mentions (Resource.get_Id first) (Resource.get_Tags first) keyword).
  { destruct Henv as [E | [E | [E | []]]].
    - exists "dev". split; [simpl; auto|]. right. exists environment.
      split; [exact Hv|]. rewrite <- E. reflexivity.
    - exists "staging". split; [simpl; auto|]. right. exists environment.
      split; [exact Hv|]. rewrite <- E. reflexivity.
    - exists "dev". split; [simpl; auto|]. right. exists environment.
      split; [exact Hv|]. rewrite <- E. reflexivity. }
  destruct Hkw as (keyword & Hin & Hm).
  apply (test_keyword_detected _ _ keyword Hin). now apply mentions_text.
Qed.

(** X13. A finding has an approved exception only if its account id is one
    of the three account names of the exception list, the control of its
    generator id is IAM.1, S3.1 or EC2.1, and the [Environment] tag of its
    first resource is development, staging or dev; such a finding is always
    of the tier [test]. *)
Theorem business_exception_scope :
  forall finding : Finding.t,
    BusinessContextAnalyzer.has_business_exception finding = true ->
    In (Finding.get_AwsAccountId finding) Props.exception_accounts
    /\ In (Py.last_item (Py.split "/" (Finding.get_GeneratorId finding)))
          ["IAM.1"; "S3.1"; "EC2.1"]
    /\ (exists first rest,
          Finding.get_Resources finding = first :: rest
          /\ In (Py.dict_get (Resource.get_Tags first) "Environment" "unknown")
                ["development"; "staging"; "dev"])
    /\ EnvironmentContext.environment (analyze_environment_context finding) = "test".
Proof. exact exception_facts. Qed.

Lemma business_exception_scope_witness :
  BusinessContextAnalyzer.has_business_exception Props.excepted_finding = true
  /\ In (Finding.get_AwsAccountId Props.excepted_finding) Props.exception_accounts
  /\ EnvironmentContext.environment (analyze_environment_context Props.excepted_finding)
     = "test".
Proof.
  split; [reflexivity|].
  destruct (business_exception_scope Props.excepted_finding eq_refl)
    as (H1 & _ & _ & H2).
  split; assumption.
Defined.

(** ** The Lambda handler *)


(** ** Sample size in the pattern engine *)

(** X10. The pattern confidence exceeds 0.8, the level at which the combiner
    quotes the pattern reasoning, only with more than ten similar findings
    and a rate above 0.8; up to ten findings it is at most 0.8, and up to
    five it is 0.5 whatever the outcomes were. *)
Theorem pattern_confidence_needs_evidence :
  forall history : list HistoricalFinding.t,
    let confidence := calculate_pattern_probability (analyze_outcomes history) in
    let rate := get_false_positive_rate (analyze_outcomes history) in
    (Py.gt confidence 0.8 = true ->
     (10 < List.length history)%nat /\ 0.8 < rate)
    /\ ((List.length history <= 10)%nat -> confidence <= 0.8)
    /\ (confidence <= rate \/ confidence == 0.5).
Proof.
  intro history. cbv zeta.
  pose proof (calculate_pattern_probability_spec history) as Hs.
  rewrite analyze_outcomes_rate.
  pose proof (false_positive_rate_unit history) as [H0 H1].
  set (c := calculate_pattern_probability (analyze_outcomes history)) in *.
  unfold Spec.pattern_confidence in Hs.
  destruct (10 <? List.length history)%nat eqn:E10.
  - apply Nat.ltb_lt in E10. split; [|split; [lia | left; lra]].
    intro H. apply gt_true_iff in H. split; [assumption | lra].
  - apply Nat.ltb_ge in E10.
    destruct (5 <? List.length history)%nat.
    + split; [|split; [intros _; lra | left; lra]].
      intro H. apply gt_true_iff in H. lra.
    + split; [|split; [intros _; lra | right; exact Hs]].
      intro H. apply gt_true_iff in H. lra.
Qed.

Lemma filter_length_forallb {A} (f : A -> bool) (l : list A) :
  List.length (filter f l) = List.length l <-> forallb f l = true.
Proof.
  induction l as [|x l IH]; simpl; [tauto|].
  pose proof (filter_length_le f l) as Hle.
  destruct (f x); simpl.
  - rewrite <- IH. lia.
  - split; [lia | discriminate].
Qed.

Lemma filter_length_existsb {A} (f : A -> bool) (l : list A) :
  List.length (filter f l) = 0%nat <-> existsb f l = false.
Proof.
  induction l as [|x l IH]; simpl; [tauto|].
  destruct (f x); simpl; [split; [lia | discriminate] | exact IH].
Qed.

Lemma of_nat_inj (k n : nat) : Py.of_nat k == Py.of_nat n -> k = n.
Proof.
  unfold Py.of_nat. intro E. apply Nat2Z.inj. now apply inject_Z_injective.
Qed.

Lemma of_nat_div_one (k n : nat) :
  (0 < n)%nat -> (Py.of_nat k / Py.of_nat n == 1 <-> k = n).
Proof.
  intro Hn. pose proof (of_nat_pos n Hn) as Hpos.
  assert (Hnz : ~ Py.of_nat n == 0) by lra.
  split.
  - intro H. apply of_nat_inj.
    rewrite <- (Qmult_div_r (Py.of_nat k) (Py.of_nat n)) by exact Hnz.
    rewrite H. ring.
  - intros ->. field. exact Hnz.
Qed.

Lemma of_nat_div_zero (k n : nat) :
  (0 < n)%nat -> (Py.of_nat k / Py.of_nat n == 0 <-> k = 0%nat).
Proof.
  intro Hn. pose proof (of_nat_pos n Hn) as Hpos.
  assert (Hnz : ~ Py.of_nat n == 0) by lra.
  split.
  - intro H. apply of_nat_inj.
    rewrite <- (Qmult_div_r (Py.of_nat k) (Py.of_nat n)) by exact Hnz.
    rewrite H. change (Py.of_nat 0) with 0. ring.
  - intros ->. change (Py.of_nat 0) with 0. field. exact Hnz.
Qed.

(** X11. For a non-empty history the false-positive rate is 1 exactly when
    every finding is SUPPRESSED and 0 exactly when none is; a finding without
    a workflow state counts as not suppressed. *)
Theorem false_positive_rate_extremes :
  forall history : list HistoricalFinding.t,
    history <> [] ->
    let rate := get_false_positive_rate (analyze_outcomes history) in
    (rate == 1 <-> forallb is_suppressed history = true)
    /\ (rate == 0 <-> existsb is_suppressed history = false)
    /\ is_suppressed (HistoricalFinding.mk None) = false.
Proof.
  intros history Hne. cbv zeta.
  rewrite analyze_outcomes_rate. unfold Spec.false_positive_rate.
  destruct history as [|h rest]; [congruence|].
  rewrite <- suppressed_count_filter.
  assert (Hn : (0 < List.length (h :: rest))%nat) by (simpl; lia).
  split; [|split; [|reflexivity]].
  - rewrite of_nat_div_one by exact Hn. apply filter_length_forallb.
  - rewrite of_nat_div_zero by exact Hn. apply filter_length_existsb.
Qed.

Lemma false_positive_rate_extremes_witness :
  Props.long_history <> []
  /\ (get_false_positive_rate (analyze_outcomes Props.long_history) == 1
      <-> forallb is_suppressed Props.long_history = true).
Proof.
  assert (Hne : Props.long_history <> []) by discriminate.
  split; [exact Hne|].
  exact (proj1 (false_positive_rate_extremes Props.long_history Hne)).
Defined.

(** ** The temporal analyzer *)

(** X14. The temporal risk is HIGH exactly when the finding is not temporary,
    not in a maintenance window and has no recurrence pattern, and LOW
    exactly when it is temporary; the combiner's temporal score is above the
    neutral 0.5 only when that risk is LOW or MEDIUM; in the source every
    finding is analysed as not temporary, with risk HIGH and score 0.5. *)
Theorem temporal_risk_and_score :
  forall (is_temporary in_maintenance_window : bool) (recurrence_pattern : string),
    let risk := TemporalAnalyzer.calculate_temporal_risk is_temporary recurrence_pattern
                  in_maintenance_window in
    let analysis := TemporalAnalysis.mk is_temporary recurrence_pattern
                      in_maintenance_window risk in
    (risk = "HIGH" <->
     is_temporary = false /\ in_maintenance_window = false /\ recurrence_pattern = "NONE")
    /\ (risk = "LOW" <-> is_temporary = true)
    /\ (risk = "LOW" \/ risk = "MEDIUM" \/ risk = "HIGH")
    /\ (0.5 < calculate_temporal_score analysis -> risk <> "HIGH")
    /\ (forall finding,
          TemporalAnalyzer.analyze_temporal_context finding
          = TemporalAnalysis.mk false "NONE" false "HIGH"
          /\ calculate_temporal_score (TemporalAnalyzer.analyze_temporal_context finding)
             = 0.5).
Proof.
  intros is_temporary in_maintenance_window recurrence_pattern. cbv zeta.
  unfold TemporalAnalyzer.calculate_temporal_risk, calculate_temporal_score.
  cbn [TemporalAnalysis.is_temporary TemporalAnalysis.in_maintenance_window].
  destruct is_temporary, in_maintenance_window;
    destruct (String.eqb_spec recurrence_pattern "NONE");
    cbn [negb];
    repeat split; intros;
    repeat match goal with
           | H : _ /\ _ |- _ => destruct H
           end;
    try discriminate; try congruence; auto;
    try (exfalso; lra).
Qed.

(** ** Feature vectors of another length *)

Lemma classify_features_none_iff (finding : Finding.t) (features : list Q) :
  MLClassifier.classify_features finding features = None
  <-> (List.length features < 4)%nat.
Proof.
  unfold MLClassifier.classify_features, MLClassifier.generate_reasoning.
  destruct features as [|f0 [|f1 [|f2 [|f3 rest]]]]; cbn [nth_error List.length];
    split; intro H; try reflexivity; try lia; try discriminate H.
Qed.

Lemma zip_weights_extra (features extra : list Q) :
  List.length features = 5%nat ->
  Py.zip (features ++ extra) MLClassifier.weights = Py.zip features MLClassifier.weights.
Proof.
  intro H.
  destruct features as [|f0 [|f1 [|f2 [|f3 [|f4 [|f5 rest]]]]]]; try discriminate H.
  destruct extra; reflexivity.
Qed.

(** X15. The classifier needs the first four features: with fewer the index
    error makes [classify_finding]'s body return [None].  Features after the
    fifth are ignored, and missing trailing features count as 0; the empty
    vector gets probability 0. *)
Theorem classifier_feature_count :
  forall (finding : Finding.t) (features extra : list Q),
    (MLClassifier.classify_features finding features = None
     <-> (List.length features < 4)%nat)
    /\ (List.length features = 5%nat ->
        MLClassifier.simple_classification (features ++ extra)
        = MLClassifier.simple_classification features)
    /\ MLClassifier.simple_classification [] == 0
    /\ (forall f0 f1 f2 f3,
          MLClassifier.simple_classification [f0; f1; f2; f3]
          == MLClassifier.simple_classification [f0; f1; f2; f3; 0]).
Proof.
  intros finding features extra.
  split; [apply classify_features_none_iff|].
  split.
  { intro H. unfold MLClassifier.simple_classification.
    now rewrite zip_weights_extra. }
  split; [reflexivity|].
  intros f0 f1 f2 f3. rewrite simple_classification_five.
  unfold MLClassifier.simple_classification. rewrite min_max_clamp.
  apply clamp_eq.
  unfold Spec.linear_combination, Py.sum, Py.zip, MLClassifier.weights.
  cbn [combine map fold_left fst snd]. lra.
Qed.

(** ** The reasoning of the combiner *)

Lemma combine_no_indicators (e : option EnvironmentContext.t)
    (m : option FalsePositiveClassification.t) (p : option PatternAnalysis.t)
    (b : option BusinessContext.t) (t : option TemporalAnalysis.t) :
  (forall x, e = Some x -> Py.gt (calculate_environment_score x) 0.8 = false) ->
  (forall x, m = Some x -> Py.gt (FalsePositiveClassification.confidence x) 0.7 = false) ->
  (forall x, p = Some x -> Py.gt (PatternAnalysis.pattern_confidence x) 0.8 = false) ->
  (forall x, b = Some x -> BusinessContext.has_business_exception x = false) ->
  (forall x, t = Some x -> TemporalAnalysis.is_temporary x = false) ->
  Classification.reasoning (combine_analysis_results e m p b t) = "No specific indicators".
Proof.
  intros He Hm Hp Hb Ht.
  unfold combine_analysis_results, record_result.
  destruct e as [e|]; [rewrite (He e eq_refl)|];
    (destruct m as [m|]; [rewrite (Hm m eq_refl)|]);
    (destruct p as [p|]; [rewrite (Hp p eq_refl)|]);
    (destruct b as [b|]; [rewrite (Hb b eq_refl)|]);
    (destruct t as [t|]; [rewrite (Ht t eq_refl)|]);
    reflexivity.
Qed.

(** The classifier's threshold fires only on a finding whose environment
    score is 0.9. *)
Lemma classifier_fires_only_non_production (py_str : Finding.t -> string)
    (finding : Finding.t) (m : FalsePositiveClassification.t) :
  MLClassifier.classify_finding py_str finding = Some m ->
  FalsePositiveFeatureExtractor.extract_environment_score finding <> 0.9 ->
  Py.gt (FalsePositiveClassification.confidence m) 0.7 = false.
Proof.
  intros Hm Hne. apply gt_false_iff.
  pose proof (classify_finding_bound py_str finding m Hm) as Hb.
  pose proof (extract_business_exception_score_le finding) as Hbe.
  destruct (extract_environment_score_values finding) as [E | [E | E]];
    [congruence | rewrite E in Hb; lra | rewrite E in Hb; lra].
Qed.

(** X16. When no block of the combiner fires, the reasoning is the text
    "No specific indicators"; for a request this is the case whenever the
    tier is production or unknown and the finding has no approved exception,
    whatever the options are. *)
Theorem reasoning_without_indicators :
  forall (py_str : Finding.t -> string) (clock : Clock.t)
         (finding : Finding.t) (options : Options.t) (r : Response.t),
    analyze_finding py_str clock finding options = Returned r ->
    (EnvironmentContext.environment (Response.environment_analysis r) = "production"
     \/ EnvironmentContext.environment (Response.environment_analysis r) = "unknown") ->
    BusinessContextAnalyzer.has_business_exception finding = false ->
    Classification.reasoning (Response.classification r) = "No specific indicators".
Proof.
  intros py_str clock finding options r Hr Htier Hex.
  destruct (analyze_finding_fields _ _ _ _ _ Hr) as (E & M & P & B & T & _ & C).
  rewrite E in Htier.
  assert (Hscore : FalsePositiveFeatureExtractor.extract_environment_score finding <> 0.9).
  { unfold FalsePositiveFeatureExtractor.extract_environment_score.
    destruct Htier as [-> | ->]; discriminate. }
  rewrite C. apply combine_no_indicators.
  - intros x Hx. injection Hx as <-. rewrite E.
    unfold calculate_environment_score. destruct Htier as [-> | ->]; reflexivity.
  - intros x Hx. rewrite M in Hx.
    destruct (Options.get (Options.include_ml_classification options)); [|discriminate].
    exact (classifier_fires_only_non_production py_str finding x Hx Hscore).
  - intros x Hx. rewrite P in Hx.
    destruct (Options.get (Options.include_pattern_analysis options)); [|discriminate].
    injection Hx as <-. reflexivity.
  - intros x Hx. rewrite B in Hx.
    destruct (Options.get (Options.include_business_context options)); [|discriminate].
    injection Hx as <-.
    unfold BusinessContextAnalyzer.analyze_business_context.
    destruct (Finding.get_Resources finding); [reflexivity | exact Hex].
  - intros x Hx. rewrite T in Hx.
    destruct (Options.get (Options.include_temporal_analysis options)); [|discriminate].
    injection Hx as <-. reflexivity.
Qed.

Lemma reasoning_without_indicators_witness :
  exists r,
    analyze_finding sample_str sample_clock
      (create_test_finding "production" "HIGH" [("Environment", "production")])
      default_options = Returned r
    /\ Classification.reasoning (Response.classification r) = "No specific indicators".
Proof.
  eexists. split; [reflexivity|].
  apply (reasoning_without_indicators sample_str sample_clock
           (create_test_finding "production" "HIGH" [("Environment", "production")])
           default_options _ eq_refl).
  - left. reflexivity.
  - reflexivity.
Defined.

(** ** The percentage in the pattern reasoning *)

Lemma round_half_even_near (x : Q) :
  inject_Z (Py.round_half_even x) - (1#2) <= x
  /\ x <= inject_Z (Py.round_half_even x) + (1#2).
Proof.
  unfold Py.round_half_even, Py.lt.
  pose proof (Qfloor_le x) as Hlo. pose proof (Qlt_floor x) as Hhi.
  rewrite inject_Z_plus in Hhi. change (inject_Z 1) with 1 in Hhi.
  set (fl := Qfloor x) in *.
  destruct (gt_cases (1#2) (x - inject_Z fl)) as [[-> H] | [-> H]]; [lra|].
  destruct (gt_cases (x - inject_Z fl) (1#2)) as [[-> H'] | [-> H']].
  - rewrite inject_Z_plus. change (inject_Z 1) with 1. lra.
  - destruct (Z.even fl).
    + lra.
    + rewrite inject_Z_plus. change (inject_Z 1) with 1. lra.
Qed.

Lemma round_half_even_percent (x : Q) :
  0 <= x <= 100 -> (0 <= Py.round_half_even x <= 100)%Z.
Proof.
  intros [H0 H1]. destruct (round_half_even_near x) as [Hlo Hhi].
  set (z := Py.round_half_even x) in *.
  split.
  - assert (H : inject_Z (-1) < inject_Z z) by (change (inject_Z (-1)) with (-1#1); lra).
    rewrite <- Zlt_Qlt in H. lia.
  - assert (H : inject_Z z < inject_Z 101) by (change (inject_Z 101) with (101#1); lra).
    rewrite <- Zlt_Qlt in H. lia.
Qed.


(** ** Coherence of the environment context *)

(** X18. In the environment context of a finding, [is_production] and
    [requires_immediate_action] are the same flag, set exactly for the tier
    [production], which is exactly when the risk is HIGH and the environment
    score is 0.1; the risk is LOW exactly for the tiers [test] and
    [development], whose score is 0.9. *)
Theorem environment_context_coherent :
  forall finding : Finding.t,
    let context := analyze_environment_context finding in
    let tier := EnvironmentContext.environment context in
    EnvironmentContext.requires_immediate_action context
    = EnvironmentContext.is_production context
    /\ (EnvironmentContext.is_production context = true <-> tier = "production")
    /\ (EnvironmentContext.risk_level context = "HIGH" <-> tier = "production")
    /\ (EnvironmentContext.risk_level context = "LOW" <->
        tier = "test" \/ tier = "development")
    /\ (calculate_environment_score context = 0.1 <-> tier = "production")
    /\ (calculate_environment_score context = 0.9 <->
        tier = "test" \/ tier = "development").
Proof.
  intro finding. cbv zeta.
  pose proof (environment_values finding) as Hv. cbv zeta in Hv.
  pose proof (risk_level_of_environment finding) as Hrisk.
  assert (Hflag : EnvironmentContext.is_production (analyze_environment_context finding)
                  = String.eqb (EnvironmentContext.environment
                                  (analyze_environment_context finding)) "production"
                  /\ EnvironmentContext.requires_immediate_action
                       (analyze_environment_context finding)
                     = EnvironmentContext.is_production
                         (analyze_environment_context finding)).
  { unfold analyze_environment_context.
    destruct (Finding.get_Resources finding); split; reflexivity. }
  destruct Hflag as [Hp Hq].
  split; [exact Hq|].
  rewrite Hrisk, Hp. unfold calculate_environment_score.
  destruct Hv as [E | [E | [E | E]]]; rewrite E; cbn;
    repeat split; intros;
    repeat match goal with
           | H : _ \/ _ |- _ => destruct H
           end;
    try discriminate; try congruence; auto.
Qed.

(** ** Which findings can be classified as false positives *)

Lemma len_cons {A} (x : A) (xs : list A) : Py.len (x :: xs) == 1 + Py.len xs.
Proof.
  unfold Py.len. change (List.length (x :: xs)) with (S (List.length xs)).
  rewrite Nat2Z.inj_succ, <- Z.add_1_r, inject_Z_plus.
  change (inject_Z 1) with 1. lra.
Qed.

Lemma len_nil {A} : Py.len (@nil A) == 0.
Proof. reflexivity. Qed.

Lemma mean_le_of_sum (bound : Q) (xs : list Q) :
  xs <> [] -> fold_right Qplus 0 xs <= bound * Py.len xs ->
  Spec.arithmetic_mean xs <= bound.
Proof.
  intros Hne H. destruct xs as [|x xs]; [congruence|].
  unfold Spec.arithmetic_mean. fold (Py.len (x :: xs)).
  apply Qle_shift_div_r; [apply len_pos | exact H].
Qed.

(** A finding of the tier production or unknown stays at 0.65 or below,
    whatever the options are. *)
Lemma production_or_unknown_bound (py_str : Finding.t -> string) (clock : Clock.t)
    (finding : Finding.t) (options : Options.t) (r : Response.t) :
  analyze_finding py_str clock finding options = Returned r ->
  calculate_environment_score (Response.environment_analysis r) <= 0.5 ->
  Classification.confidence (Response.classification r) <= 0.65.
Proof.
  intros Hr He.
  pose proof (analyze_finding_mean _ _ _ _ _ Hr) as Hmean.
  destruct (analyze_finding_fields _ _ _ _ _ Hr) as (E & M & P & B & T & _).
  rewrite Hmean.
  assert (Hml : forall m, MLClassifier.classify_finding py_str finding = Some m ->
                          FalsePositiveClassification.confidence m <= 0.59).
  { intros m Hm. pose proof (classify_finding_bound py_str finding m Hm) as Hb.
    pose proof (extract_business_exception_score_le finding) as Hbe.
    rewrite E, environment_score_agrees in He. lra. }
  pose proof (calculate_business_score_le
                (BusinessContextAnalyzer.analyze_business_context finding)) as Hbs.
  set (e := calculate_environment_score (Response.environment_analysis r)) in *.
  unfold Spec.optional_scores. rewrite M, P, B, T.
  destruct (Options.get (Options.include_ml_classification options)),
           (Options.get (Options.include_pattern_analysis options)),
           (Options.get (Options.include_business_context options)),
           (Options.get (Options.include_temporal_analysis options));
    try (destruct (MLClassifier.classify_finding py_str finding) as [m|];
         [specialize (Hml m eq_refl)|]);
    cbn [Spec.score_of app];
    rewrite ?analyze_historical_patterns_neutral, ?analyze_temporal_context_neutral;
    (apply mean_le_of_sum; [discriminate|]);
    cbn [fold_right]; rewrite ?len_cons, len_nil; lra.
Qed.

(** X20. Only a finding of the tier [test] or [development] can be classified
    as a false positive: for the tiers [production] and [unknown] the
    confidence is at most 0.65 under every combination of the options, so
    [is_false_positive] is false and the action is REVIEW. *)
Theorem false_positive_needs_non_production :
  forall (py_str : Finding.t -> string) (clock : Clock.t)
         (finding : Finding.t) (options : Options.t) (r : Response.t),
    analyze_finding py_str clock finding options = Returned r ->
    let tier := EnvironmentContext.environment (Response.environment_analysis r) in
    (tier = "production" \/ tier = "unknown" ->
     Classification.confidence (Response.classification r) <= 0.65
     /\ Classification.is_false_positive (Response.classification r) = false
     /\ Classification.recommended_action (Response.classification r) = "REVIEW")
    /\ (Classification.is_false_positive (Response.classification r) = true ->
        tier = "test" \/ tier = "development").
Proof.
  intros py_str clock finding options r Hr. cbv zeta.
  destruct (analyze_finding_fields _ _ _ _ _ Hr) as (E & _ & _ & _ & _ & _ & C).
  assert (K : EnvironmentContext.environment (Response.environment_analysis r) = "production"
              \/ EnvironmentContext.environment (Response.environment_analysis r) = "unknown" ->
              Classification.confidence (Response.classification r) <= 0.65).
  { intro Htier. apply (production_or_unknown_bound _ _ _ _ _ Hr).
    unfold calculate_environment_score. destruct Htier as [-> | ->]; cbn; lra. }
  assert (F : Classification.is_false_positive (Response.classification r)
              = Py.gt (Classification.confidence (Response.classification r)) 0.7).
  { rewrite C at 1. rewrite combine_is_false_positive, <- C. reflexivity. }
  split.
  - intro Htier. specialize (K Htier). split; [exact K|]. split.
    + rewrite F. apply gt_false_iff. lra.
    + rewrite C. apply combine_review. rewrite <- C. lra.
  - intro Hfp. rewrite F in Hfp. apply gt_true_iff in Hfp.
    pose proof (environment_values finding) as Hv. cbv zeta in Hv. rewrite <- E in Hv.
    destruct Hv as [Hv | [Hv | [Hv | Hv]]]; auto.
    + specialize (K (or_introl Hv)). lra.
    + specialize (K (or_intror Hv)). lra.
Qed.

Lemma false_positive_needs_non_production_witness :
  exists r,
    analyze_finding sample_str sample_clock development_finding all_disabled = Returned r
    /\ Classification.is_false_positive (Response.classification r) = true
    /\ (EnvironmentContext.environment (Response.environment_analysis r) = "test"
        \/ EnvironmentContext.environment (Response.environment_analysis r)
           = "development").
Proof.
  eexists. split; [reflexivity|]. split; [reflexivity|].
  exact (proj2 (false_positive_needs_non_production sample_str sample_clock
                  development_finding all_disabled _ eq_refl) eq_refl).
Defined.


